(** * ud_search: neighbourhood extraction and summary tables

    A shallow embedding of [extract_neighborhood_genes.py] and
    [summarize_results.py], and the properties of their parsers, of the
    window join and of the two-way aggregation.

    Conventions of the embedding.
    - A Python [str] is a [string]; a character is a code point below 256.
    - A Python [int] is a [Z]; [int(...)] on a string has no bound on the
      number of digits (the interpreter's configurable bound is left out).
    - The midpoints [(start + end) / 2] are computed in [Q].  Python computes
      them in binary64, which is exact on half-integers of magnitude below
      2^52, far above any contig coordinate.
    - A [dict] is a [gmap], a [set] is a [gset]; [defaultdict] lookups that
      create the key are written as an insert over the default.
    - An exception that leaves a function is the left injection of a sum;
      [print] appends to a list of diagnostics. *)

From Stdlib Require Import ZArith QArith Ascii String List Bool Lia Lqa.
From stdpp Require Import base option list list_numbers gmap sets strings
  sorting pretty.

Local Open Scope Z_scope.

(** ** Exceptions and the error monad *)

Inductive exn : Type :=
  | FileNotFoundError
  | PermissionError
  | UnicodeDecodeError
  | CsvError
  | ValueError
  | IndexError.

Definition result (A : Type) : Type := (exn + A)%type.

Definition ret {A} (a : A) : result A := inr a.
Definition raise {A} (e : exn) : result A := inl e.
Definition bind {A B} (m : result A) (k : A -> result B) : result B :=
  match m with
  | inl e => inl e
  | inr a => k a
  end.

Notation "'letM' x ':=' m 'in' k" := (bind m (fun x => k))
  (at level 10, x name, m at level 100, k at level 200).

(** ** The Python built-ins the two scripts use *)

Module Py.

(** [str.isspace] on one character. *)
Definition isspace (c : ascii) : bool :=
  let n := nat_of_ascii c in
  ((9 <=? n) && (n <=? 13) || (28 <=? n) && (n <=? 32)
   || (n =? 133) || (n =? 160))%nat.

Definition isdigit (c : ascii) : bool :=
  let n := nat_of_ascii c in ((48 <=? n) && (n <=? 57))%nat.

Fixpoint lstrip (s : string) : string :=
  match s with
  | EmptyString => EmptyString
  | String c s' => if isspace c then lstrip s' else s
  end.

Fixpoint rstrip (s : string) : string :=
  match s with
  | EmptyString => EmptyString
  | String c s' =>
      match rstrip s' with
      | EmptyString => if isspace c then EmptyString else String c EmptyString
      | r => String c r
      end
  end.

Definition strip (s : string) : string := rstrip (lstrip s).

Definition startswith (s p : string) : bool := String.prefix p s.

(** [s[n:]]: the first [n] characters dropped. *)
Fixpoint skip (n : nat) (s : string) : string :=
  match n, s with
  | O, _ => s
  | S _, EmptyString => EmptyString
  | S n', String _ s' => skip n' s'
  end.

Definition endswith (s p : string) : bool :=
  (String.length p <=? String.length s)%nat
  && String.eqb (skip (String.length s - String.length p) s) p.

(** [sub in s]. *)
Fixpoint contains (sub s : string) : bool :=
  match s with
  | EmptyString => String.prefix sub EmptyString
  | String _ s' => String.prefix sub s || contains sub s'
  end.

(** [s.partition(sep)] when [sep] occurs: the text before the first
    occurrence and the text after it. *)
Fixpoint partition (sep s : string) : option (string * string) :=
  match s with
  | EmptyString => None
  | String c s' =>
      if String.prefix sep s then Some (EmptyString, skip (String.length sep) s)
      else match partition sep s' with
           | Some (b, a) => Some (String c b, a)
           | None => None
           end
  end.

(** [s.split(sep)] for a separator that is not empty: the occurrences are
    found from the left and do not overlap. *)
Fixpoint split_from (fuel : nat) (sep s : string) : list string :=
  match partition sep s with
  | None => [s]
  | Some (b, a) =>
      match fuel with
      | O => [b]
      | S fuel' => b :: split_from fuel' sep a
      end
  end.

Definition split (sep s : string) : list string :=
  split_from (String.length s) sep s.

(** [l[i]]: an index out of range raises. *)
Definition item {A} (l : list A) (i : nat) : result A :=
  match l !! i with
  | Some x => ret x
  | None => raise IndexError
  end.

(** The value of a run of decimal digits in which single underscores may
    separate digits, most significant digit first.  [after_digit] tells
    whether the previous character was a digit. *)
Fixpoint digits (acc : Z) (after_digit : bool) (s : string) : option Z :=
  match s with
  | EmptyString => if after_digit then Some acc else None
  | String c s' =>
      if isdigit c then
        digits (10 * acc + Z.of_nat (nat_of_ascii c - 48)) true s'
      else if Ascii.eqb c "_" then
        if after_digit then digits acc false s' else None
      else None
  end.

(** [int(s)] on a string: surrounding white space, an optional sign, then
    the digits; anything else is a [ValueError]. *)
Definition int (s : string) : result Z :=
  let body := strip s in
  let signed :=
    match body with
    | String "+" r => digits 0 false r
    | String "-" r => option_map Z.opp (digits 0 false r)
    | _ => digits 0 false body
    end in
  match signed with
  | Some z => ret z
  | None => raise ValueError
  end.

End Py.

(** ** Data model *)

(** A gene of interest, as [parse_goi_fasta] stores it. *)
Record Goi : Type := mkGoi {
  g_strain : string;
  g_contig : string;
  g_start : Z;
  g_end : Z;
  g_header : string
}.

(** An annotation feature, as [parse_gff] stores it. *)
Record Feature : Type := mkFeature {
  f_type : string;
  f_start : Z;
  f_end : Z;
  f_strand : string;
  f_id : string;
  f_product : string
}.

(** One row of the flat neighbour table. *)
Record Neighbor : Type := mkNeighbor {
  goi_strain : string;
  goi_contig : string;
  goi_start : Z;
  goi_end : Z;
  goi_header : string;
  neighbor_id : string;
  neighbor_type : string;
  neighbor_start : Z;
  neighbor_end : Z;
  neighbor_strand : string;
  neighbor_product : string
}.

(** What the scripts print. *)
Inductive diag : Type :=
  | HeaderNotParsed (line : string)
  | FoundGois (n : nat)
  | Scanning (dir : string)
  | LoadingStrain (strain : string)
  | LoadedStrains (n : nat)
  | NoAnnotationForStrain (strain : string)
  | ContigNotFound (contig strain : string)
  | NoNeighborsFound
  | WroteNeighbors (n : nat) (path : string)
  | ReadingInput (path : string)
  | InputNotFound (path : string)
  | ErrorReading (e : exn)
  | NoValidData
  | WritingStrainSummary (path : string)
  | WroteStrains (n : nat)
  | WritingGeneSummary (path : string)
  | WroteGenes (n : nat).

(** [open(path)] followed by the iteration over the lines: the lines of the
    file, each with its line end, or the exception [open] raises. *)
Definition filesystem : Type := string -> result (list string).

(** ** extract_neighborhood_genes.py *)

Definition tab : string := String "009" EmptyString.
Definition newline : ascii := "010"%char.

(** *** HEADER_REGEX

    [>([^|]+)\|contig=([^|]+)\|.*?SubjectStart=(\d+)_SubjectEnd=(\d+)],
    matched the way the backtracking engine does.  The two [[^|]+] groups and
    the two [\d+] groups are greedy and each is followed by a character
    outside its class (or by the end of the pattern), so each takes the
    longest run; [.*?] is lazy and tries the shortest skip first. *)

Definition not_bar (c : ascii) : bool := negb (Ascii.eqb c "|").

(** The longest prefix of [s] whose characters satisfy [p], and the rest. *)
Fixpoint span (p : ascii -> bool) (s : string) : string * string :=
  match s with
  | EmptyString => (EmptyString, EmptyString)
  | String c s' =>
      if p c then let '(run, rest) := span p s' in (String c run, rest)
      else (EmptyString, s)
  end.

(** A group [X+]: a run of at least one character. *)
Definition plus (p : ascii -> bool) (s : string) : option (string * string) :=
  match span p s with
  | (EmptyString, _) => None
  | (run, rest) => Some (run, rest)
  end.

(** A literal: the rest of [s] after the prefix [lit]. *)
Definition literal (lit s : string) : option string :=
  if String.prefix lit s then Some (Py.skip (String.length lit) s) else None.

(** [SubjectStart=(\d+)_SubjectEnd=(\d+)] at the start of [s]. *)
Definition match_coords (s : string) : option (string * string) :=
  match literal "SubjectStart=" s with
  | None => None
  | Some s1 =>
      match plus Py.isdigit s1 with
      | None => None
      | Some (d1, s2) =>
          match literal "_SubjectEnd=" s2 with
          | None => None
          | Some s3 =>
              match plus Py.isdigit s3 with
              | None => None
              | Some (d2, _) => Some (d1, d2)
              end
          end
      end
  end.

(** [.*?] followed by the coordinates: skip as few characters as possible,
    none of them a line end. *)
Fixpoint lazy_coords (s : string) : option (string * string) :=
  match match_coords s with
  | Some ds => Some ds
  | None =>
      match s with
      | EmptyString => None
      | String c s' => if Ascii.eqb c newline then None else lazy_coords s'
      end
  end.

(** The whole pattern anchored at the start of [s]. *)
Definition match_here (s : string) : option (string * string * string * string) :=
  match literal ">" s with
  | None => None
  | Some s1 =>
      match plus not_bar s1 with
      | None => None
      | Some (strain, s2) =>
          match literal "|contig=" s2 with
          | None => None
          | Some s3 =>
              match plus not_bar s3 with
              | None => None
              | Some (contig, s4) =>
                  match literal "|" s4 with
                  | None => None
                  | Some s5 =>
                      match lazy_coords s5 with
                      | None => None
                      | Some (d1, d2) => Some (strain, contig, d1, d2)
                      end
                  end
              end
          end
      end
  end.

(** [HEADER_REGEX.search(line)]: the match at the leftmost position that has
    one, as [match.groups()]. *)
Fixpoint HEADER_REGEX_search (line : string)
  : option (string * string * string * string) :=
  match match_here line with
  | Some groups => Some groups
  | None =>
      match line with
      | EmptyString => None
      | String _ line' => HEADER_REGEX_search line'
      end
  end.

(** *** parse_goi_fasta *)

(** One iteration of the loop over the lines: the records appended and the
    warnings printed. *)
Definition parse_goi_line (line : string) : result (list diag * list Goi) :=
  if Py.startswith line ">" then
    match HEADER_REGEX_search line with
    | Some (strain, contig, start, end_) =>
        letM s := Py.int start in
        letM e := Py.int end_ in
        let start_pos := Z.min s e in
        let end_pos := Z.max s e in
        ret ([], [mkGoi strain contig start_pos end_pos (Py.strip line)])
    | None => ret ([HeaderNotParsed (Py.strip line)], [])
    end
  else ret ([], []).

Fixpoint parse_goi_lines (lines : list string) : result (list diag * list Goi) :=
  match lines with
  | [] => ret ([], [])
  | line :: rest =>
      letM here := parse_goi_line line in
      letM later := parse_goi_lines rest in
      ret (here.1 ++ later.1, here.2 ++ later.2)
  end.

Definition parse_goi_fasta (fs : filesystem) (fasta_file : string)
  : result (list diag * list Goi) :=
  letM lines := fs fasta_file in
  letM parsed := parse_goi_lines lines in
  ret (parsed.1 ++ [FoundGois (length parsed.2)], parsed.2).




(** *** parse_gff *)

(** The attribute value after [key]: ["N/A"] unless [key] occurs, else
    [attributes_str.split(key)[1].split(";")[0]]. *)
Definition attribute (key attributes_str : string) : result string :=
  if Py.contains key attributes_str then
    letM tail := Py.item (Py.split key attributes_str) 1 in
    Py.item (Py.split ";" tail) 0
  else ret "N/A".

(** One iteration of the loop over the lines: [None] when the line is passed
    over with [continue], else the contig and the feature appended to it. *)
Definition parse_gff_line (line : string) : result (option (string * Feature)) :=
  if Py.startswith line "#" || String.eqb (Py.strip line) "" then ret None
  else
    let parts := Py.split tab (Py.strip line) in
    if (length parts <? 9)%nat then ret None
    else
      letM feature_type := Py.item parts 2 in
      if negb (String.eqb feature_type "gene" || String.eqb feature_type "CDS")
      then ret None
      else
        letM contig := Py.item parts 0 in
        letM start_text := Py.item parts 3 in
        letM start := Py.int start_text in
        letM end_text := Py.item parts 4 in
        letM end_ := Py.int end_text in
        letM strand := Py.item parts 6 in
        letM attributes_str := Py.item parts 8 in
        letM gene_id := attribute "ID=" attributes_str in
        letM product := attribute "product=" attributes_str in
        ret (Some (contig, mkFeature feature_type start end_ strand gene_id product)).

(** [contig_db[contig].append(feature)] on a [defaultdict(list)]. *)
Definition append_feature (contig : string) (f : Feature)
    (contig_db : gmap string (list Feature)) : gmap string (list Feature) :=
  <[contig := default [] (contig_db !! contig) ++ [f]]> contig_db.

Fixpoint parse_gff_lines (lines : list string)
    (contig_db : gmap string (list Feature)) : result (gmap string (list Feature)) :=
  match lines with
  | [] => ret contig_db
  | line :: rest =>
      letM row := parse_gff_line line in
      match row with
      | None => parse_gff_lines rest contig_db
      | Some (contig, f) => parse_gff_lines rest (append_feature contig f contig_db)
      end
  end.

Definition parse_gff (fs : filesystem) (gff_file : string)
  : result (gmap string (list Feature)) :=
  letM lines := fs gff_file in
  parse_gff_lines lines ∅.

(** *** load_all_annotations *)

(** [os.path.basename]: the text after the last ["/"]. *)
Fixpoint basename (path : string) : string :=
  match path with
  | EmptyString => EmptyString
  | String c rest =>
      if Py.contains "/" rest then basename rest
      else if Ascii.eqb c "/" then rest
      else path
  end.

(** [os.path.join(root, file)] for a file name without ["/"]. *)
Definition path_join (root file : string) : string :=
  if String.eqb root "" || Py.endswith root "/" then root +:+ file
  else root +:+ "/" +:+ file.

(** The loop over the files of one directory. *)
Fixpoint load_files (fs : filesystem) (root : string) (files : list string)
    (acc : list diag * gmap string (gmap string (list Feature)))
  : result (list diag * gmap string (gmap string (list Feature))) :=
  match files with
  | [] => ret acc
  | file :: rest =>
      if Py.endswith file ".gff" then
        let strain_id := basename root in
        let gff_path := path_join root file in
        letM contig_db := parse_gff fs gff_path in
        load_files fs root rest
          (acc.1 ++ [LoadingStrain strain_id], <[strain_id := contig_db]> acc.2)
      else load_files fs root rest acc
  end.

(** The loop over [os.walk(annotation_dir)], given as the triples
    [(root, dirs, files)] the walk yields, in its order. *)
Fixpoint load_walk (fs : filesystem) (walk : list (string * list string * list string))
    (acc : list diag * gmap string (gmap string (list Feature)))
  : result (list diag * gmap string (gmap string (list Feature))) :=
  match walk with
  | [] => ret acc
  | (root, _, files) :: rest =>
      letM acc' := load_files fs root files acc in
      load_walk fs rest acc'
  end.

Definition load_all_annotations (fs : filesystem) (annotation_dir : string)
    (walk : list (string * list string * list string))
  : result (list diag * gmap string (gmap string (list Feature))) :=
  letM loaded := load_walk fs walk ([Scanning annotation_dir], ∅) in
  ret (loaded.1 ++ [LoadedStrains (size loaded.2)], loaded.2).

(** *** find_neighbors *)

(** [(start + end) / 2]. *)
Definition midpoint (start end_ : Z) : Q := (inject_Z (start + end_) / 2)%Q.

Definition neighbor_record (goi : Goi) (gene : Feature) : Neighbor :=
  {| goi_strain := g_strain goi;
     goi_contig := g_contig goi;
     goi_start := g_start goi;
     goi_end := g_end goi;
     goi_header := g_header goi;
     neighbor_id := f_id gene;
     neighbor_type := f_type gene;
     neighbor_start := f_start gene;
     neighbor_end := f_end gene;
     neighbor_strand := f_strand gene;
     neighbor_product := f_product gene |}.

(** The loop over the genes of the contig: the records appended. *)
Fixpoint scan_contig (goi : Goi) (window_start window_end : Q)
    (all_genes_on_contig : list Feature) : list Neighbor :=
  match all_genes_on_contig with
  | [] => []
  | gene :: rest =>
      let gene_start := f_start gene in
      let gene_end := f_end gene in
      if (gene_start =? g_start goi) && (gene_end =? g_end goi) then
        scan_contig goi window_start window_end rest
      else
        let gene_center := midpoint gene_start gene_end in
        if Qle_bool window_start gene_center && Qle_bool gene_center window_end
        then neighbor_record goi gene
             :: scan_contig goi window_start window_end rest
        else scan_contig goi window_start window_end rest
  end.

(** One iteration of the loop over the genes of interest. *)
Definition neighbors_of (goi : Goi)
    (annotations_db : gmap string (gmap string (list Feature)))
    (window_size : Z) : list diag * list Neighbor :=
  match annotations_db !! g_strain goi with
  | None => ([NoAnnotationForStrain (g_strain goi)], [])
  | Some strain_annotations =>
      match strain_annotations !! g_contig goi with
      | None => ([ContigNotFound (g_contig goi) (g_strain goi)], [])
      | Some all_genes_on_contig =>
          let goi_center := midpoint (g_start goi) (g_end goi) in
          let window_start := (goi_center - inject_Z window_size)%Q in
          let window_end := (goi_center + inject_Z window_size)%Q in
          ([], scan_contig goi window_start window_end all_genes_on_contig)
      end
  end.

Fixpoint find_neighbors (genes_of_interest : list Goi)
    (annotations_db : gmap string (gmap string (list Feature)))
    (window_size : Z) : list diag * list Neighbor :=
  match genes_of_interest with
  | [] => ([], [])
  | goi :: rest =>
      let here := neighbors_of goi annotations_db window_size in
      let later := find_neighbors rest annotations_db window_size in
      (here.1 ++ later.1, here.2 ++ later.2)
  end.

(** *** write_output_csv and main *)

(** The rows handed to the CSV writer, or [None] when no file is written. *)
Definition write_output_csv (results : list Neighbor) (output_file : string)
  : list diag * option (list Neighbor) :=
  match results with
  | [] => ([NoNeighborsFound], None)
  | _ => ([WroteNeighbors (length results) output_file], Some results)
  end.

(** [main] of the first stage: an exception that reaches it is not caught. *)
Definition extract_main (fs : filesystem) (fasta annotations : string)
    (walk : list (string * list string * list string)) (window : Z)
    (output : string) : result (list diag * option (list Neighbor)) :=
  letM gois := parse_goi_fasta fs fasta in
  letM db := load_all_annotations fs annotations walk in
  let found := find_neighbors gois.2 db.2 window in
  let written := write_output_csv found.2 output in
  ret (gois.1 ++ db.1 ++ found.1 ++ written.1, written.2).




(** ** summarize_results.py *)

(** A row of [csv.DictReader]: column name to value.  A column the row does
    not have (a short row, or a name missing from the header) is absent, and
    [row.get] gives [None] for it. *)
Abbreviation csv_row := (gmap string string).

(** [csv.DictReader] over the opened file: the rows, or the exception that
    opening or reading raises. *)
Definition csv_source : Type := string -> result (list csv_row).

(** The two groupings: a [defaultdict(set)] each. *)
Abbreviation groups := (gmap string (gset string)).

(** [data[key].add(member)]. *)
Definition add_member (key member : string) (data : groups) : groups :=
  <[key := default ∅ (data !! key) ∪ {[member]}]> data.

(** Truth value of [row.get(...)]: [None] and the empty string are false. *)
Definition truthy (v : option string) : bool :=
  match v with
  | Some (String _ _) => true
  | _ => false
  end.

(** The loop over the rows of the reader. *)
Fixpoint accumulate (rows : list csv_row) (strain_data gene_data : groups)
  : groups * groups :=
  match rows with
  | [] => (strain_data, gene_data)
  | row :: rest =>
      let strain := row !! "goi_strain" in
      let neighbor := row !! "neighbor_id" in
      if truthy strain && truthy neighbor then
        match strain, neighbor with
        | Some s, Some n =>
            accumulate rest (add_member s n strain_data) (add_member n s gene_data)
        | _, _ => accumulate rest strain_data gene_data
        end
      else accumulate rest strain_data gene_data
  end.

(** A cell handed to [csv.writer]: a string or a count. *)
Inductive cell : Type :=
  | Text (s : string)
  | Count (n : nat).

Record table : Type := mkTable {
  header : list cell;
  data_rows : list (list cell)
}.

(** [max(...)] over a generator: raises on an empty one. *)
Definition py_max (ns : list nat) : result nat :=
  match ns with
  | [] => raise ValueError
  | _ => ret (max_list ns)
  end.

(** [sorted] on strings. *)
Definition sorted (l : list string) : list string := merge_sort String.le l.

Definition key_le (a b : string * gset string) : Prop := String.le a.1 b.1.

#[global] Instance key_le_dec : RelDecision key_le.
Proof. intros a b. unfold key_le. apply _. Defined.

(** [sorted(data.items())]: the keys are distinct, so the order is that of
    the keys. *)
Definition sorted_items (data : groups) : list (string * gset string) :=
  merge_sort key_le (map_to_list data).

(** One data row: the key, the count, the sorted members and the padding. *)
Definition summary_row (max_members : nat) (item : string * gset string)
  : list cell :=
  let member_list := sorted (elements item.2) in
  let count := length member_list in
  [Text item.1; Count count] ++ (Text <$> member_list)
  ++ replicate (max_members - count) (Text "").

(** One of the two blocks that write a summary; they differ in the two fixed
    column names and in the prefix of the numbered columns only. *)
Definition summary (key_name count_name slot_prefix : string) (data : groups)
  : result table :=
  letM max_members := py_max (size <$> (map_to_list data).*2) in
  let headers :=
    [Text key_name; Text count_name]
    ++ ((fun i => Text (slot_prefix +:+ pretty (i + 1)%nat)) <$> seq 0 max_members) in
  ret (mkTable headers (summary_row max_members <$> sorted_items data)).

Definition summarize_neighbors (reader : csv_source)
    (input_file output_strains output_genes : string)
  : result (list diag * option (table * table)) :=
  match reader input_file with
  | inl FileNotFoundError =>
      ret ([ReadingInput input_file; InputNotFound input_file], None)
  | inl e => ret ([ReadingInput input_file; ErrorReading e], None)
  | inr rows =>
      let '(strain_data, gene_data) := accumulate rows ∅ ∅ in
      if decide (strain_data = ∅) then
        ret ([ReadingInput input_file; NoValidData], None)
      else
        letM strains := summary "Strain" "Neighbor_Count" "Neighbor_" strain_data in
        letM genes := summary "Gene_Name" "Strain_Count" "Strain_" gene_data in
        ret ([ReadingInput input_file;
              WritingStrainSummary output_strains;
              WroteStrains (size strain_data);
              WritingGeneSummary output_genes;
              WroteGenes (size gene_data)],
             Some (strains, genes))
  end.

(** The scenario of the rows (S1,G1), (S1,G2), (S2,G1). *)
Definition row_of (strain neighbor : string) : csv_row :=
  {[ "goi_strain" := strain; "neighbor_id" := neighbor ]}.

(** ** Vocabulary of the statements *)

(** The text of [s] before the first occurrence of [sep], all of [s] when
    there is none. *)
Definition before (sep s : string) : string :=
  match String.index 0 sep s with
  | Some n => String.substring 0 n s
  | None => s
  end.

(** The text that follows the first occurrence of [key], cut at the first
    [";"] and at the next occurrence of [key], whichever comes first; the
    sentinel when [key] does not occur. *)
Definition value_after (key attributes_str : string) : string :=
  match String.index 0 key attributes_str with
  | Some n => before ";" (before key (Py.skip (n + String.length key) attributes_str))
  | None => "N/A"
  end.

(** The same text cut at the first [";"] only. *)
Definition value_to_semicolon (key attributes_str : string) : string :=
  match String.index 0 key attributes_str with
  | Some n => before ";" (Py.skip (n + String.length key) attributes_str)
  | None => "N/A"
  end.

(** A line of a GFF file from its fields. *)
Fixpoint tab_join (fields : list string) : string :=
  match fields with
  | [] => EmptyString
  | [x] => x
  | x :: rest => x +:+ tab +:+ tab_join rest
  end.

Definition gff_row (fields : list string) : string :=
  tab_join fields +:+ String newline EmptyString.

(** Every character of [s] satisfies [p]. *)
Fixpoint string_forall (p : ascii -> bool) (s : string) : bool :=
  match s with
  | EmptyString => true
  | String c s' => p c && string_forall p s'
  end.

(** A run of at least one decimal digit, what [\d+] matches. *)
Definition digit_run (s : string) : Prop :=
  s <> EmptyString /\ string_forall Py.isdigit s = true.

(** The feature has exactly the coordinates of the gene of interest. *)
Definition same_coordinates (goi : Goi) (gene : Feature) : Prop :=
  f_start gene = g_start goi /\ f_end gene = g_end goi.

(** The midpoint of the feature lies in the closed interval
    [goi_center - window_size, goi_center + window_size]. *)
Definition midpoint_in_window (goi : Goi) (window_size : Z) (gene : Feature) : Prop :=
  (midpoint (g_start goi) (g_end goi) - inject_Z window_size
     <= midpoint (f_start gene) (f_end gene))%Q
  /\ (midpoint (f_start gene) (f_end gene)
      <= midpoint (g_start goi) (g_end goi) + inject_Z window_size)%Q.

(** The two tests of the scan on one feature: not the coordinates of the
    gene of interest, and the midpoint between the two bounds. *)
Definition passes (goi : Goi) (window_start window_end : Q) (gene : Feature) : bool :=
  negb ((f_start gene =? g_start goi) && (f_end gene =? g_end goi))
  && (Qle_bool window_start (midpoint (f_start gene) (f_end gene))
      && Qle_bool (midpoint (f_start gene) (f_end gene)) window_end).

(** The scenario of the specification: a gene of interest on contig C1 of
    strain S1 at 1000..2000, and an index with the given features there. *)
Definition scenario_goi : Goi :=
  mkGoi "S1" "C1" 1000 2000 ">S1|contig=C1|SubjectStart=1000_SubjectEnd=2000".

Definition feature_at (id : string) (start end_ : Z) : Feature :=
  mkFeature "gene" start end_ "+" id "N/A".

Definition scenario_db (genes : list Feature)
  : gmap string (gmap string (list Feature)) :=
  {[ "S1" := {[ "C1" := genes ]} ]}.

(** The [.gff] files of one directory of the walk, each with the strain
    identifier it resolves to and its path, in the order of the walk. *)
Fixpoint dir_entries (root : string) (files : list string) : list (string * string) :=
  match files with
  | [] => []
  | file :: rest =>
      if Py.endswith file ".gff"
      then (basename root, path_join root file) :: dir_entries root rest
      else dir_entries root rest
  end.

Fixpoint gff_files (walk : list (string * list string * list string))
  : list (string * string) :=
  match walk with
  | [] => []
  | (root, _, files) :: rest => dir_entries root files ++ gff_files rest
  end.

(** The index after the files [entries] have been loaded in turn. *)
Fixpoint load_entries (fs : filesystem) (entries : list (string * string))
    (db : gmap string (gmap string (list Feature)))
  : result (gmap string (gmap string (list Feature))) :=
  match entries with
  | [] => ret db
  | (strain_id, gff_path) :: rest =>
      letM contig_db := parse_gff fs gff_path in
      load_entries fs rest (<[strain_id := contig_db]> db)
  end.

(** Two annotation files in the directory of strain S1, with one feature
    each, on different contigs. *)
Definition two_files : filesystem := fun path =>
  if String.eqb path "ann/S1/a.gff" then
    inr [gff_row ["c1"; "prokka"; "gene"; "1"; "10"; "."; "+"; "."; "ID=g1"]]
  else if String.eqb path "ann/S1/b.gff" then
    inr [gff_row ["c2"; "prokka"; "gene"; "5"; "20"; "."; "-"; "."; "ID=g2"]]
  else inl FileNotFoundError.

Definition two_files_walk : list (string * list string * list string) :=
  [("ann", ["S1"], []); ("ann/S1", [], ["a.gff"; "b.gff"; "notes.txt"])].

(** The index that [load_all_annotations] builds from them. *)
Definition scenario_index : gmap string (gmap string (list Feature)) :=
  {[ "S1" := {[ "c2" := [mkFeature "gene" 5 20 "-" "g2" "N/A"] ]} ]}.

(** The two fields of a row the summarizer reads. *)
Definition pair_of (row : csv_row) : option string * option string :=
  (row !! "goi_strain", row !! "neighbor_id").

(** A row with one of the two fields missing or empty. *)
Definition invalid_row (row : csv_row) : Prop :=
  row !! "goi_strain" = None \/ row !! "goi_strain" = Some ""
  \/ row !! "neighbor_id" = None \/ row !! "neighbor_id" = Some "".

(** The effect of one row on the two groupings. *)
Definition absorb (p : option string * option string) (st : groups * groups)
  : groups * groups :=
  match p with
  | (Some (String c s), Some (String d n)) =>
      (add_member (String c s) (String d n) st.1,
       add_member (String d n) (String c s) st.2)
  | _ => st
  end.

(** The input without the rows that repeat an earlier
    (goi_strain, neighbor_id) pair; [seen] holds the pairs met so far. *)
Fixpoint dedup_from (seen : list (option string * option string))
    (rows : list csv_row) : list csv_row :=
  match rows with
  | [] => []
  | row :: rest =>
      if decide (pair_of row ∈ seen) then dedup_from seen rest
      else row :: dedup_from (pair_of row :: seen) rest
  end.

Definition dedup_rows (rows : list csv_row) : list csv_row := dedup_from [] rows.

(** The largest group of a grouping, 0 for the empty grouping. *)
Definition max_group_size (data : groups) : nat :=
  max_list (size <$> (map_to_list data).*2).

(** The shape of a summary table over [data]: the header and every data row
    have [2 + max_group_size data] cells, and a data row is the key of a
    group, its size, its members in order and empty cells up to the width. *)
Definition well_padded (data : groups) (t : table) : Prop :=
  length (header t) = (2 + max_group_size data)%nat
  /\ Forall (fun row =>
       length row = (2 + max_group_size data)%nat
       /\ exists key members,
            data !! key = Some members
            /\ row = [Text key; Count (size members)]
                     ++ (Text <$> sorted (elements members))
                     ++ replicate (max_group_size data - size members) (Text ""))
     (data_rows t).

(** The rows (S1,G1), (S1,G2), (S2,G1) of the specification, and the same
    input with the first row repeated. *)
Definition scenario_rows : list csv_row :=
  [row_of "S1" "G1"; row_of "S1" "G2"; row_of "S2" "G1"].

Definition repeated_rows : list csv_row :=
  [row_of "S1" "G1"; row_of "S1" "G1"; row_of "S1" "G2"; row_of "S2" "G1";
   row_of "S1" "G1"].

(** A FASTA file with one header, and an annotation file of strain S1 whose
    only row has a start column that is not a number. *)
Definition bad_start_files : filesystem := fun path =>
  if String.eqb path "goi.fasta" then
    inr [">S1|contig=c1|SubjectStart=3_SubjectEnd=9" +:+ String newline "";
         "ACGT" +:+ String newline ""]
  else if String.eqb path "ann/S1/a.gff" then
    inr [gff_row ["c1"; "prokka"; "gene"; "abc"; "10"; "."; "+"; "."; "ID=g1"]]
  else inl FileNotFoundError.

Definition bad_start_walk : list (string * list string * list string) :=
  [("ann", ["S1"], []); ("ann/S1", [], ["a.gff"])].

(** The rows of a GFF file that [parse_gff] retains, in file order, or the
    exception of the first line that raises. *)
Fixpoint retained_rows (lines : list string) : result (list (string * Feature)) :=
  match lines with
  | [] => ret []
  | line :: rest =>
      letM row := parse_gff_line line in
      letM later := retained_rows rest in
      ret (match row with
           | Some r => r :: later
           | None => later
           end)
  end.

(** The features of the rows on [contig], in the order of the rows. *)
Fixpoint features_on (contig : string) (rows : list (string * Feature))
  : list Feature :=
  match rows with
  | [] => []
  | (c, f) :: rest =>
      if String.eqb c contig then f :: features_on contig rest
      else features_on contig rest
  end.



(** A FASTA file with a header that matches, a sequence line and a header
    that does not match. *)
Definition mixed_fasta : filesystem := fun path =>
  if String.eqb path "goi.fasta" then
    inr [">S1|contig=c1|SubjectStart=3_SubjectEnd=9" +:+ String newline "";
         "ACGT" +:+ String newline "";
         ">S2 no coordinates" +:+ String newline ""]
  else inl FileNotFoundError.

(** The strain and the contig of the gene of interest are in the index. *)
Definition resolves (annotations_db : gmap string (gmap string (list Feature)))
    (goi : Goi) : bool :=
  match annotations_db !! g_strain goi with
  | Some strain_annotations =>
      match strain_annotations !! g_contig goi with
      | Some _ => true
      | None => false
      end
  | None => false
  end.

(** The group of [key], empty when [key] is not a key of the grouping. *)
Definition members (data : groups) (key : string) : gset string :=
  default ∅ (data !! key).

(** The data rows of a summary over [data] are one row per key, in the order
    of the keys, and the members of each row are in order and distinct. *)
Definition in_key_order (data : groups) (t : table) : Prop :=
  exists items : list (string * gset string),
    data_rows t = summary_row (max_group_size data) <$> items
    /\ items ≡ₚ map_to_list data
    /\ StronglySorted String.le items.*1
    /\ NoDup items.*1
    /\ Forall (fun item =>
                 StronglySorted String.le (sorted (elements item.2))
                 /\ NoDup (sorted (elements item.2))
                 /\ forall x, x ∈ sorted (elements item.2) <-> x ∈ item.2) items.

(** A data row that begins with a key and a count of at least one. *)
Definition counts_some (row : list cell) : Prop :=
  exists key n rest, row = Text key :: Count (S n) :: rest.

(** * Properties *)

(** ** Strings *)

Section PyStrings.

Lemma prefix_skip (p s : string) :
  String.prefix p s = true -> s = p +:+ Py.skip (String.length p) s.
Proof.
  revert s. induction p as [|c p IH]; intros [|d s]; simpl; try done.
  destruct (ascii_dec c d) as [->|]; [|done].
  intros H. change (String d s = String d (p +:+ Py.skip (String.length p) s)).
  by rewrite <- (IH s H).
Qed.

Lemma length_append (a b : string) :
  String.length (a +:+ b) = (String.length a + String.length b)%nat.
Proof.
  induction a as [|c a IH]; [done|].
  change (S (String.length (a +:+ b)) = S (String.length a + String.length b)).
  by rewrite IH.
Qed.

(** [partition] cuts the string around one occurrence of the separator. *)
Lemma partition_parts (sep s b a : string) :
  Py.partition sep s = Some (b, a) -> s = b +:+ sep +:+ a.
Proof.
  revert b. induction s as [|c s IH]; intros b; [done|].
  cbn [Py.partition].
  destruct (String.prefix sep (String c s)) eqn:Hp.
  - intros [= <- <-]. by apply prefix_skip in Hp.
  - destruct (Py.partition sep s) as [[b' a']|]; [|done].
    intros [= <- <-]. change (String c s = String c (b' +:+ sep +:+ a')).
    by rewrite <- (IH b').
Qed.

Lemma partition_shorter (sep s b a : string) :
  sep <> EmptyString -> Py.partition sep s = Some (b, a) ->
  (String.length a < String.length s)%nat.
Proof.
  intros Hsep Hp. apply partition_parts in Hp. subst s.
  rewrite !length_append. destruct sep; [done|]. simpl. lia.
Qed.

(** Enough fuel: [split_from] does not depend on it from the length of the
    string on. *)
Lemma split_from_enough (sep : string) (fuel1 fuel2 : nat) (s : string) :
  sep <> EmptyString ->
  (String.length s <= fuel1)%nat -> (String.length s <= fuel2)%nat ->
  Py.split_from fuel1 sep s = Py.split_from fuel2 sep s.
Proof.
  intros Hsep. revert fuel2 s.
  induction fuel1 as [|fuel1 IH]; intros [|fuel2] s H1 H2; simpl;
    destruct (Py.partition sep s) as [[b a]|] eqn:Hp; try done;
    pose proof (partition_shorter _ _ _ _ Hsep Hp) as Hlt; try lia.
  f_equal. apply IH; lia.
Qed.

(** The equation of [split]. *)
Lemma split_unfold (sep s : string) :
  sep <> EmptyString ->
  Py.split sep s =
    match Py.partition sep s with
    | None => [s]
    | Some (b, a) => b :: Py.split sep a
    end.
Proof.
  intros Hsep. unfold Py.split at 1.
  destruct (String.length s) as [|n] eqn:Hn; simpl;
    destruct (Py.partition sep s) as [[b a]|] eqn:Hp; try done.
  - apply partition_shorter in Hp; [lia|done].
  - f_equal. apply partition_shorter in Hp; [|done].
    apply split_from_enough; [done|lia|lia].
Qed.

(** [partition] finds the first occurrence, the one [String.index] finds. *)
Lemma partition_index (sep s : string) :
  sep <> EmptyString ->
  Py.partition sep s =
    match String.index 0 sep s with
    | Some n => Some (String.substring 0 n s, Py.skip (n + String.length sep) s)
    | None => None
    end.
Proof.
  intros Hsep. induction s as [|c s IH].
  - simpl. by destruct sep.
  - cbn [Py.partition String.index].
    destruct (String.prefix sep (String c s)); [done|].
    rewrite IH. by destruct (String.index 0 sep s).
Qed.

Lemma contains_index (sep s : string) :
  sep <> EmptyString ->
  Py.contains sep s = match String.index 0 sep s with Some _ => true | None => false end.
Proof.
  intros Hsep. induction s as [|c s IH].
  - simpl. by destruct sep.
  - cbn [Py.contains String.index].
    destruct (String.prefix sep (String c s)); [done|].
    rewrite IH. simpl. by destruct (String.index 0 sep s).
Qed.

End PyStrings.

(** ** The error monad *)

Lemma bind_inr {A B} (m : result A) (k : A -> result B) (b : B) :
  bind m k = inr b -> exists a, m = inr a /\ k a = inr b.
Proof. destruct m as [e|a]; simpl; [done|]. intros H. by exists a. Qed.

Lemma item_inr {A} (l : list A) (i : nat) (x : A) :
  Py.item l i = inr x -> l !! i = Some x.
Proof. unfold Py.item. destruct (l !! i); [|done]. by intros [= ->]. Qed.

(** ** GFF attributes *)

Section Attributes.

Lemma split_first (sep s : string) :
  sep <> EmptyString -> Py.item (Py.split sep s) 0 = ret (before sep s).
Proof.
  intros Hsep. rewrite split_unfold, partition_index by done.
  unfold before. by destruct (String.index 0 sep s).
Qed.

(** After the membership test, neither index is out of range, and the
    value is the one [value_after] describes. *)
Lemma attribute_value (key attributes_str : string) :
  key <> EmptyString ->
  attribute key attributes_str = ret (value_after key attributes_str).
Proof.
  intros Hkey. unfold attribute, value_after.
  rewrite contains_index, split_unfold, partition_index by done.
  destruct (String.index 0 key attributes_str) as [n|]; [|done].
  cbn [Py.item lookup list_lookup bind ret].
  set (rest := Py.skip _ _).
  assert (Py.item (Py.split key rest) 0 = ret (before key rest)) as Hfirst
    by by apply split_first.
  unfold Py.item in Hfirst |- *.
  destruct (Py.split key rest) as [|tail more]; [done|].
  simpl in Hfirst |- *. injection Hfirst as ->.
  by apply split_first.
Qed.

(** C10 (as amended).  The feature id of a retained row is the text of the
    ninth field that follows the first occurrence of the substring ["ID="],
    wherever it occurs (also inside a longer key), cut at the first [";"],
    at the next occurrence of ["ID="] or at the end of the field, whichever
    comes first; the product is read the same way after ["product="]; a
    field without the substring gives ["N/A"]. *)
Theorem gff_attributes_by_substring (line contig : string) (f : Feature) :
  parse_gff_line line = inr (Some (contig, f)) ->
  exists attributes_str,
    Py.split tab (Py.strip line) !! 8%nat = Some attributes_str
    /\ f_id f = value_after "ID=" attributes_str
    /\ f_product f = value_after "product=" attributes_str.
Proof.
  unfold parse_gff_line.
  destruct (Py.startswith line "#" || String.eqb (Py.strip line) ""); [done|].
  destruct (length (Py.split tab (Py.strip line)) <? 9)%nat; [done|].
  intros H. apply bind_inr in H as (feature_type & _ & H).
  destruct (negb _); [done|].
  apply bind_inr in H as (contig' & _ & H).
  apply bind_inr in H as (start_text & _ & H).
  apply bind_inr in H as (start & _ & H).
  apply bind_inr in H as (end_text & _ & H).
  apply bind_inr in H as (end_ & _ & H).
  apply bind_inr in H as (strand & _ & H).
  apply bind_inr in H as (attributes_str & Hattr & H).
  rewrite !attribute_value in H by done.
  injection H as <- <-.
  exists attributes_str. split; [by apply item_inr|done].
Qed.

Lemma gff_attributes_by_substring_witness :
  exists attributes_str,
    Py.split tab (Py.strip (gff_row ["NODE_1"; "prokka"; "CDS"; "10"; "90"; ".";
                                     "+"; "0"; "locusID=12;Note=product=kinase"]))
      !! 8%nat = Some attributes_str
    /\ f_id (mkFeature "CDS" 10 90 "+" "12" "kinase") = value_after "ID=" attributes_str
    /\ f_product (mkFeature "CDS" 10 90 "+" "12" "kinase")
       = value_after "product=" attributes_str.
Proof.
  apply (gff_attributes_by_substring _ "NODE_1"). reflexivity.
Defined.

(** C10 as stated fails: the value is not cut at the first [";"] only.  A
    second ["ID="] before the [";"] ends it earlier. *)
Lemma gff_id_cut_at_next_key :
  parse_gff_line (gff_row ["NODE_1"; "prokka"; "CDS"; "10"; "90"; "."; "+"; "0";
                           "ID=cds1.locusID=7;product=x"])
  = inr (Some ("NODE_1", mkFeature "CDS" 10 90 "+" "cds1.locus" "x"))
  /\ value_to_semicolon "ID=" "ID=cds1.locusID=7;product=x" = "cds1.locusID=7".
Proof. split; reflexivity. Qed.

End Attributes.

(** ** FASTA headers *)

Section Headers.

Lemma span_run (p : ascii -> bool) (s run rest : string) :
  span p s = (run, rest) -> string_forall p run = true.
Proof.
  revert run. induction s as [|c s IH]; intros run; simpl.
  - by intros [= <- <-].
  - destruct (p c) eqn:Hc; [|by intros [= <- <-]].
    destruct (span p s) as [run' rest']. intros [= <- <-].
    simpl. rewrite Hc. by apply IH.
Qed.

Lemma plus_run (p : ascii -> bool) (s run rest : string) :
  plus p s = Some (run, rest) ->
  run <> EmptyString /\ string_forall p run = true.
Proof.
  unfold plus. destruct (span p s) as [[|c r] rest'] eqn:Hs; [done|].
  intros [= <- <-]. split; [done|]. by apply span_run in Hs.
Qed.

Lemma match_coords_digits (s d1 d2 : string) :
  match_coords s = Some (d1, d2) -> digit_run d1 /\ digit_run d2.
Proof.
  unfold match_coords.
  destruct (literal "SubjectStart=" s) as [s1|]; [|done].
  destruct (plus Py.isdigit s1) as [[e1 s2]|] eqn:H1; [|done].
  destruct (literal "_SubjectEnd=" s2) as [s3|]; [|done].
  destruct (plus Py.isdigit s3) as [[e2 s4]|] eqn:H2; [|done].
  intros [= <- <-]. split; eapply plus_run; eauto.
Qed.

Lemma lazy_coords_digits (s d1 d2 : string) :
  lazy_coords s = Some (d1, d2) -> digit_run d1 /\ digit_run d2.
Proof.
  induction s as [|c s IH]; [done|].
  cbn [lazy_coords].
  destruct (match_coords (String c s)) as [[e1 e2]|] eqn:Hm.
  - intros [= <- <-]. by apply match_coords_digits in Hm.
  - destruct (Ascii.eqb c newline); [done|apply IH].
Qed.

Lemma match_here_digits (s strain contig d1 d2 : string) :
  match_here s = Some (strain, contig, d1, d2) -> digit_run d1 /\ digit_run d2.
Proof.
  unfold match_here.
  destruct (literal ">" s) as [s1|]; [|done].
  destruct (plus not_bar s1) as [[g1 s2]|]; [|done].
  destruct (literal "|contig=" s2) as [s3|]; [|done].
  destruct (plus not_bar s3) as [[g2 s4]|]; [|done].
  destruct (literal "|" s4) as [s5|]; [|done].
  destruct (lazy_coords s5) as [[e1 e2]|] eqn:Hl; [|done].
  intros [= <- <- <- <-]. by apply lazy_coords_digits in Hl.
Qed.

(** The two coordinate groups of a match are runs of digits. *)
Lemma search_digits (line strain contig d1 d2 : string) :
  HEADER_REGEX_search line = Some (strain, contig, d1, d2) ->
  digit_run d1 /\ digit_run d2.
Proof.
  induction line as [|c line IH]; [done|].
  cbn [HEADER_REGEX_search].
  destruct (match_here (String c line)) as [[[[? ?] ?] ?]|] eqn:Hm.
  - intros [= <- <- <- <-]. by apply match_here_digits in Hm.
  - apply IH.
Qed.

Lemma digit_not_space (c : ascii) : Py.isdigit c = true -> Py.isspace c = false.
Proof. by destruct c as [[] [] [] [] [] [] [] []]. Qed.

Lemma digit_not_sign (c : ascii) :
  Py.isdigit c = true -> c <> "+"%char /\ c <> "-"%char.
Proof. by destruct c as [[] [] [] [] [] [] [] []]. Qed.

Lemma rstrip_digits (s : string) :
  string_forall Py.isdigit s = true -> Py.rstrip s = s.
Proof.
  induction s as [|c s IH]; simpl; [done|].
  intros [Hc Hs]%andb_prop. rewrite (IH Hs).
  destruct s; [|done]. by rewrite (digit_not_space c Hc).
Qed.

Lemma strip_digits (s : string) :
  string_forall Py.isdigit s = true -> Py.strip s = s.
Proof.
  intros Hs. unfold Py.strip.
  assert (Py.lstrip s = s) as ->; [|by apply rstrip_digits].
  destruct s as [|c s]; simpl; [done|].
  simpl in Hs. apply andb_prop in Hs as [Hc _].
  by rewrite (digit_not_space c Hc).
Qed.

Lemma digits_total (s : string) (acc : Z) (after_digit : bool) :
  string_forall Py.isdigit s = true ->
  s <> EmptyString \/ after_digit = true ->
  exists z, Py.digits acc after_digit s = Some z.
Proof.
  revert acc after_digit. induction s as [|c s IH]; intros acc b; simpl.
  - intros _ [?| ->]; [done|]. by exists acc.
  - intros [Hc Hs]%andb_prop _. rewrite Hc. apply IH; [done|by right].
Qed.

(** [int] does not raise on what [\d+] matched. *)
Lemma int_digit_run (s : string) : digit_run s -> exists z, Py.int s = inr z.
Proof.
  intros [Hne Hs]. unfold Py.int. rewrite strip_digits by done.
  destruct (digits_total s 0 false Hs (or_introl Hne)) as [z Hz].
  destruct s as [|c s]; [done|].
  simpl in Hs. apply andb_prop in Hs as [Hc _].
  assert (Py.digits 0 false (String c s) = Some z ->
          exists z', match
            match String c s with
            | String "+" r => Py.digits 0 false r
            | String "-" r => option_map Z.opp (Py.digits 0 false r)
            | _ => Py.digits 0 false (String c s)
            end with Some z0 => ret z0 | None => raise ValueError end = inr z')
    as Hgo; [|by apply Hgo].
  destruct (digit_not_sign c Hc) as [Hp Hm].
  intros ->.
  destruct c as [[] [] [] [] [] [] [] []]; try done; by eexists.
Qed.





End Headers.

(** ** The window join *)

Section Window.

Implicit Types (goi : Goi) (gene : Feature) (r : Neighbor).
Implicit Types (annotations_db : gmap string (gmap string (list Feature))).

Lemma neighbor_record_inj goi goi' gene gene' :
  neighbor_record goi gene = neighbor_record goi' gene' ->
  goi = goi' /\ gene = gene'.
Proof.
  destruct goi, goi', gene, gene'. unfold neighbor_record. simpl.
  intros [= -> -> -> -> -> -> -> -> -> -> ->]. done.
Qed.

Lemma scan_contig_cons goi (window_start window_end : Q) gene
    (rest : list Feature) :
  scan_contig goi window_start window_end (gene :: rest) =
    (if passes goi window_start window_end gene
     then [neighbor_record goi gene] else [])
    ++ scan_contig goi window_start window_end rest.
Proof.
  unfold passes. simpl.
  destruct (f_start gene =? g_start goi), (f_end gene =? g_end goi); simpl;
    try done; by destruct (Qle_bool _ _ && Qle_bool _ _).
Qed.

Lemma passes_spec goi (window_start window_end : Q) gene :
  passes goi window_start window_end gene = true <->
  ~ same_coordinates goi gene
  /\ (window_start <= midpoint (f_start gene) (f_end gene))%Q
  /\ (midpoint (f_start gene) (f_end gene) <= window_end)%Q.
Proof.
  unfold passes, same_coordinates.
  rewrite !andb_true_iff, negb_true_iff, andb_false_iff, !Z.eqb_neq,
    !Qle_bool_iff.
  split; intros [Hc Hw]; (split; [|done]).
  - intros [? ?]. by destruct Hc.
  - destruct (decide (f_start gene = g_start goi)); [|by left].
    right. intros ?. by apply Hc.
Qed.

(** What the loop over the genes of a contig appends. *)
Lemma elem_of_scan_contig goi (window_start window_end : Q)
    (genes : list Feature) r :
  r ∈ scan_contig goi window_start window_end genes <->
  exists gene,
    gene ∈ genes /\ r = neighbor_record goi gene
    /\ passes goi window_start window_end gene = true.
Proof.
  induction genes as [|gene rest IH].
  - split; [by intros ?%elem_of_nil|]. by intros (? & ?%elem_of_nil & _).
  - rewrite scan_contig_cons, elem_of_app, IH. split.
    + intros [Hhere|(g & Hg & ?)].
      * destruct (passes _ _ _ gene) eqn:Hp; [|by apply elem_of_nil in Hhere].
        apply list_elem_of_singleton in Hhere. exists gene. split; [by left|done].
      * exists g. split; [by right|done].
    + intros (g & [->|Hg]%elem_of_cons & Hr & Hp).
      * left. rewrite Hp. by apply list_elem_of_singleton.
      * right. by exists g.
Qed.

(** The results are those of the single genes of interest, in order. *)
Lemma elem_of_find_neighbors (gois : list Goi) annotations_db (window_size : Z) r :
  r ∈ (find_neighbors gois annotations_db window_size).2 <->
  exists goi, goi ∈ gois /\ r ∈ (neighbors_of goi annotations_db window_size).2.
Proof.
  induction gois as [|goi rest IH]; simpl.
  - split; [by intros ?%elem_of_nil|]. by intros (? & ?%elem_of_nil & _).
  - rewrite elem_of_app, IH. split.
    + intros [?|(g & ? & ?)]; [exists goi|exists g]; (split; [|done]).
      * by left.
      * by right.
    + intros (g & [->|?]%elem_of_cons & ?); [by left|]. right. by exists g.
Qed.

(** A record of [neighbors_of] comes from a feature that passed both tests
    of the scan. *)
Lemma elem_of_neighbors_of goi annotations_db (window_size : Z) r :
  r ∈ (neighbors_of goi annotations_db window_size).2 <->
  exists strain_annotations genes gene,
    annotations_db !! g_strain goi = Some strain_annotations
    /\ strain_annotations !! g_contig goi = Some genes
    /\ gene ∈ genes /\ r = neighbor_record goi gene
    /\ ~ same_coordinates goi gene
    /\ midpoint_in_window goi window_size gene.
Proof.
  unfold neighbors_of, midpoint_in_window.
  destruct (annotations_db !! g_strain goi) as [sa|] eqn:Hsa; simpl.
  - destruct (sa !! g_contig goi) as [genes|] eqn:Hgenes; simpl.
    + rewrite elem_of_scan_contig. split.
      * intros (gene & Hg & Hr & Hp). apply passes_spec in Hp as (Hc & Hlo & Hhi).
        by exists sa, genes, gene.
      * intros (sa' & genes' & gene & [= <-] & Hgenes' & Hg & Hr & Hc & Hlo & Hhi).
        rewrite Hgenes in Hgenes'. injection Hgenes' as <-.
        exists gene. by rewrite passes_spec.
    + split; [by intros ?%elem_of_nil|].
      intros (sa' & ? & ? & [= <-] & ? & _). congruence.
  - split; [by intros ?%elem_of_nil|]. by intros (? & ? & ? & ? & _).
Qed.




(** C5.  A feature whose (start, end) equals that of a gene of interest is
    never emitted as a neighbour of it, whatever else the feature is. *)
Theorem same_coordinates_never_neighbor (gois : list Goi) annotations_db
    (window_size : Z) goi gene :
  same_coordinates goi gene ->
  neighbor_record goi gene ∉ (find_neighbors gois annotations_db window_size).2.
Proof.
  intros Hsame Hin. apply elem_of_find_neighbors in Hin as (goi' & _ & Hr).
  apply elem_of_neighbors_of in Hr
    as (sa & genes & gene' & _ & _ & _ & Heq & Hc & _).
  apply neighbor_record_inj in Heq as [-> ->]. done.
Qed.

(** An unrelated feature that shares the coordinates 1000..2000. *)
Lemma same_coordinates_never_neighbor_witness :
  neighbor_record scenario_goi (feature_at "other" 1000 2000)
  ∉ (find_neighbors [scenario_goi]
       (scenario_db [feature_at "self" 1000 2000; feature_at "other" 1000 2000;
                     feature_at "near" 1200 1400]) 500).2.
Proof.
  apply same_coordinates_never_neighbor. split; reflexivity.
Defined.

End Window.

(** ** The annotation index *)

Section Index.

Implicit Types (db : gmap string (gmap string (list Feature))).

Lemma load_files_entries (fs : filesystem) (root : string) (files : list string)
    (acc acc' : list diag * gmap string (gmap string (list Feature))) :
  load_files fs root files acc = inr acc' ->
  load_entries fs (dir_entries root files) acc.2 = inr acc'.2.
Proof.
  revert acc. induction files as [|file rest IH]; intros acc; simpl.
  - by intros [= ->].
  - destruct (Py.endswith file ".gff"); [|apply IH].
    intros H. apply bind_inr in H as (contig_db & Hparse & H).
    simpl. rewrite Hparse. simpl. by apply IH in H.
Qed.

Lemma load_entries_app (fs : filesystem) (e1 e2 : list (string * string)) db :
  load_entries fs (e1 ++ e2) db =
    letM db1 := load_entries fs e1 db in load_entries fs e2 db1.
Proof.
  revert db. induction e1 as [|[strain path] e1 IH]; intros db; simpl; [done|].
  destruct (parse_gff fs path) as [e|contig_db]; simpl; [done|apply IH].
Qed.

Lemma load_walk_entries (fs : filesystem)
    (walk : list (string * list string * list string))
    (acc acc' : list diag * gmap string (gmap string (list Feature))) :
  load_walk fs walk acc = inr acc' ->
  load_entries fs (gff_files walk) acc.2 = inr acc'.2.
Proof.
  revert acc. induction walk as [|[[root dirs] files] rest IH]; intros acc; simpl.
  - by intros [= ->].
  - intros H. apply bind_inr in H as (acc1 & Hfiles & H).
    rewrite load_entries_app, (load_files_entries _ _ _ _ _ Hfiles). simpl.
    by apply IH.
Qed.

(** A strain none of the files resolves to keeps its entry. *)
Lemma load_entries_other (fs : filesystem) (entries : list (string * string))
    db db' (strain : string) :
  load_entries fs entries db = inr db' ->
  strain ∉ entries.*1 -> db' !! strain = db !! strain.
Proof.
  revert db. induction entries as [|[s path] rest IH]; intros db; simpl.
  - by intros [= ->].
  - intros H Hnot. apply bind_inr in H as (contig_db & _ & H).
    apply not_elem_of_cons in Hnot as [Hne Hnot].
    rewrite (IH _ H Hnot). by rewrite lookup_insert_ne.
Qed.

(** The entry of a strain is the parse result of its last file. *)
Lemma load_entries_last (fs : filesystem) (pre post : list (string * string))
    db db' (strain path : string) :
  load_entries fs (pre ++ (strain, path) :: post) db = inr db' ->
  strain ∉ post.*1 ->
  exists contig_db, parse_gff fs path = inr contig_db /\ db' !! strain = Some contig_db.
Proof.
  rewrite load_entries_app. intros H Hnot.
  apply bind_inr in H as (db1 & _ & H). simpl in H.
  apply bind_inr in H as (contig_db & Hparse & H).
  exists contig_db. split; [done|].
  rewrite (load_entries_other _ _ _ _ _ H Hnot). by rewrite lookup_insert_eq.
Qed.

(** C1 (as amended).  When several [.gff] files of the walk resolve to the
    same strain identifier, the parse result of the later file replaces the
    entry of the strain: in the final index the entry of a strain is the
    parse result of the last of its files in walk order, whole. *)
Theorem later_file_replaces_strain_entry (fs : filesystem) (annotation_dir : string)
    (walk : list (string * list string * list string)) (diags : list diag) db
    (pre post : list (string * string)) (strain_id gff_path : string) :
  load_all_annotations fs annotation_dir walk = inr (diags, db) ->
  gff_files walk = pre ++ (strain_id, gff_path) :: post ->
  strain_id ∉ post.*1 ->
  exists contig_db,
    parse_gff fs gff_path = inr contig_db /\ db !! strain_id = Some contig_db.
Proof.
  unfold load_all_annotations. intros H Hfiles Hlast.
  apply bind_inr in H as (loaded & Hwalk & H). injection H as _ <-.
  apply load_walk_entries in Hwalk. rewrite Hfiles in Hwalk.
  by eapply load_entries_last.
Qed.

(** Two files of strain S1: the entry is the parse result of [b.gff]. *)
Lemma later_file_replaces_strain_entry_witness :
  exists contig_db,
    parse_gff two_files "ann/S1/b.gff" = inr contig_db
    /\ scenario_index !! "S1" = Some contig_db.
Proof.
  apply (later_file_replaces_strain_entry two_files "ann" two_files_walk
           [Scanning "ann"; LoadingStrain "S1"; LoadingStrain "S1"; LoadedStrains 1]
           scenario_index [("S1", "ann/S1/a.gff")] [] "S1" "ann/S1/b.gff").
  - vm_compute. reflexivity.
  - reflexivity.
  - apply not_elem_of_nil.
Defined.

(** C1 as stated fails: both files resolve to S1 and the first one has
    contig c1, yet the final entry of S1 has contig c2 only. *)
Lemma earlier_contigs_are_lost :
  gff_files two_files_walk = [("S1", "ann/S1/a.gff"); ("S1", "ann/S1/b.gff")]
  /\ parse_gff two_files "ann/S1/a.gff"
     = inr {[ "c1" := [mkFeature "gene" 1 10 "+" "g1" "N/A"] ]}
  /\ load_all_annotations two_files "ann" two_files_walk
     = inr ([Scanning "ann"; LoadingStrain "S1"; LoadingStrain "S1"; LoadedStrains 1],
            scenario_index)
  /\ scenario_index !! "S1" ≫= (.!! "c1") = None
  /\ scenario_index !! "S1" ≫= (.!! "c2")
     = Some [mkFeature "gene" 5 20 "-" "g2" "N/A"].
Proof. repeat split; vm_compute; reflexivity. Qed.

End Index.

(** ** The aggregation *)

Section Aggregation.

Implicit Types (data strain_data gene_data : groups) (row : csv_row).
Implicit Types (p q : option string * option string) (st : groups * groups).

Lemma add_member_comm (k m k' m' : string) data :
  add_member k m (add_member k' m' data) = add_member k' m' (add_member k m data).
Proof.
  unfold add_member. apply map_eq. intros i.
  destruct (decide (k = k')) as [->|Hne].
  - rewrite !lookup_insert_eq. simpl.
    destruct (decide (k' = i)) as [->|]; [|by rewrite !lookup_insert_ne].
    rewrite !lookup_insert_eq. f_equal.
    by rewrite <- !(assoc_L (∪)), (comm_L (∪) {[m']}).
  - rewrite !(lookup_insert_ne _ k k'), !(lookup_insert_ne _ k' k) by done.
    destruct (decide (k = i)) as [->|]; [by rewrite lookup_insert_eq,
      lookup_insert_ne, lookup_insert_eq|].
    rewrite (lookup_insert_ne _ k i) by done.
    destruct (decide (k' = i)) as [->|]; [by rewrite !lookup_insert_eq|].
    by rewrite !lookup_insert_ne.
Qed.

Lemma add_member_idemp (k m : string) data :
  add_member k m (add_member k m data) = add_member k m data.
Proof.
  unfold add_member. rewrite lookup_insert_eq, insert_insert_eq. simpl.
  f_equal. by rewrite <- (assoc_L (∪)), (idemp_L (∪)).
Qed.

Lemma absorb_comm p q st : absorb p (absorb q st) = absorb q (absorb p st).
Proof.
  destruct p as [[[|c s]|] [[|d n]|]], q as [[[|c' s']|] [[|d' n']|]];
    simpl; try done.
  f_equal; apply add_member_comm.
Qed.

Lemma absorb_idemp p st : absorb p (absorb p st) = absorb p st.
Proof.
  destruct p as [[[|c s]|] [[|d n]|]]; simpl; try done.
  f_equal; apply add_member_idemp.
Qed.

(** One iteration of the loop is [absorb] on the two fields of the row. *)
Lemma accumulate_cons row (rest : list csv_row) strain_data gene_data :
  accumulate (row :: rest) strain_data gene_data =
    accumulate rest (absorb (pair_of row) (strain_data, gene_data)).1
                    (absorb (pair_of row) (strain_data, gene_data)).2.
Proof.
  unfold pair_of. simpl.
  by destruct (row !! "goi_strain") as [[|c s]|],
              (row !! "neighbor_id") as [[|d n]|].
Qed.

Lemma absorb_invalid row st : invalid_row row -> absorb (pair_of row) st = st.
Proof.
  unfold invalid_row, pair_of.
  destruct (row !! "goi_strain") as [[|c s]|],
           (row !! "neighbor_id") as [[|d n]|]; simpl; try done.
  intros [?|[?|[?|?]]]; done.
Qed.

(** Rows whose pair was absorbed before change nothing. *)
Lemma accumulate_dedup_from (seen : list (option string * option string))
    (rows : list csv_row) st :
  (forall p, p ∈ seen -> absorb p st = st) ->
  accumulate (dedup_from seen rows) st.1 st.2 = accumulate rows st.1 st.2.
Proof.
  revert seen st. induction rows as [|row rest IH]; intros seen st Hseen; [done|].
  cbn [dedup_from]. destruct (decide (pair_of row ∈ seen)) as [Hin|Hnew].
  - rewrite (accumulate_cons row rest), <- surjective_pairing, (Hseen _ Hin).
    by apply IH.
  - rewrite !accumulate_cons, <- surjective_pairing. apply IH.
    intros p [->|Hp]%elem_of_cons; [apply absorb_idemp|].
    by rewrite absorb_comm, (Hseen _ Hp).
Qed.

Lemma accumulate_dedup_rows (rows : list csv_row) :
  accumulate (dedup_rows rows) ∅ ∅ = accumulate rows ∅ ∅.
Proof.
  apply (accumulate_dedup_from [] rows (∅, ∅)). by intros p ?%elem_of_nil.
Qed.

(** [max_group_size] is the size of a largest group. *)
Lemma max_group_size_bound data (key : string) (members : gset string) :
  data !! key = Some members -> (size members <= max_group_size data)%nat.
Proof.
  intros Hk. apply max_list_elem_of_le.
  apply list_elem_of_fmap. exists members. split; [done|].
  apply list_elem_of_fmap. exists (key, members). split; [done|].
  by apply elem_of_map_to_list.
Qed.

Lemma max_group_size_attained data :
  data <> ∅ ->
  exists key members, data !! key = Some members /\ size members = max_group_size data.
Proof.
  intros Hne. unfold max_group_size.
  assert (size <$> (map_to_list data).*2 <> []) as Hl.
  { intros Hnil. apply fmap_nil_inv, fmap_nil_inv, map_to_list_empty_iff in Hnil.
    done. }
  apply max_list_elem_of in Hl.
  apply list_elem_of_fmap in Hl as (members & Hsize & Hmem).
  apply list_elem_of_fmap in Hmem as ([key members'] & -> & Hitem).
  apply elem_of_map_to_list in Hitem. by exists key, members'.
Qed.


Lemma py_max_inr (ns : list nat) (n : nat) :
  py_max ns = inr n -> ns <> [] /\ n = max_list ns.
Proof. destruct ns; [done|]. by intros [= <-]. Qed.

Lemma length_sorted (l : list string) : length (sorted l) = length l.
Proof. unfold sorted. by rewrite merge_sort_Permutation. Qed.

Lemma length_summary_row (width : nat) (item : string * gset string) :
  (size item.2 <= width)%nat -> length (summary_row width item) = (2 + width)%nat.
Proof.
  intros Hle. unfold summary_row.
  rewrite !length_app, length_fmap, length_replicate, length_sorted. simpl.
  change (length (elements item.2)) with (size item.2). lia.
Qed.

(** A summary that is written has the padded shape. *)
Lemma summary_well_padded (key_name count_name slot_prefix : string) data (t : table) :
  summary key_name count_name slot_prefix data = inr t -> well_padded data t.
Proof.
  unfold summary. intros H. apply bind_inr in H as (width & Hmax & H).
  apply py_max_inr in Hmax as [_ Hwidth]. fold (max_group_size data) in Hwidth.
  subst width. injection H as <-. split; simpl.
  - by rewrite length_fmap, length_seq.
  - apply Forall_fmap, Forall_forall. intros [key members] Hin.
    unfold sorted_items in Hin. rewrite merge_sort_Permutation in Hin.
    apply elem_of_map_to_list in Hin. split.
    + apply length_summary_row. by eapply max_group_size_bound.
    + exists key, members. split; [done|].
      unfold summary_row. cbn [fst snd]. rewrite length_sorted.
      by change (length (elements members)) with (size members).
Qed.





Lemma accumulate_app (pre post : list csv_row) strain_data gene_data :
  accumulate (pre ++ post) strain_data gene_data =
    accumulate post (accumulate pre strain_data gene_data).1
                    (accumulate pre strain_data gene_data).2.
Proof.
  revert strain_data gene_data. induction pre as [|row pre IH]; intros sd gd; [done|].
  rewrite <- app_comm_cons, !accumulate_cons. apply IH.
Qed.

Lemma accumulate_invalid (rows : list csv_row) strain_data gene_data :
  Forall invalid_row rows ->
  accumulate rows strain_data gene_data = (strain_data, gene_data).
Proof.
  revert strain_data gene_data.
  induction rows as [|row rest IH]; intros sd gd Hall; [done|].
  apply Forall_cons in Hall as [Hrow Hrest].
  rewrite accumulate_cons, absorb_invalid by done. by apply IH.
Qed.

(** [dedup_rows] keeps one row of every pair. *)
Lemma dedup_from_pairs (seen : list (option string * option string))
    (rows : list csv_row) :
  NoDup (pair_of <$> dedup_from seen rows)
  /\ forall p, p ∈ pair_of <$> dedup_from seen rows
              <-> p ∈ pair_of <$> rows /\ p ∉ seen.
Proof.
  revert seen. induction rows as [|row rest IH]; intros seen.
  - split; [constructor|]. intros p. split; [by intros ?%elem_of_nil|].
    by intros [?%elem_of_nil _].
  - cbn [dedup_from]. destruct (decide (pair_of row ∈ seen)) as [Hin|Hnew].
    + destruct (IH seen) as [Hnd Hmem]. split; [done|].
      intros p. rewrite Hmem, fmap_cons, elem_of_cons. split; [tauto|].
      intros [[->|?] ?]; [done|tauto].
    + destruct (IH (pair_of row :: seen)) as [Hnd Hmem].
      rewrite !fmap_cons. split.
      * constructor; [|done]. rewrite Hmem, elem_of_cons. tauto.
      * intros p. rewrite !elem_of_cons, Hmem, elem_of_cons.
        destruct (decide (p = pair_of row)) as [->|]; tauto.
Qed.

(** C7.  In each of the two summaries that are written, the header and
    every data row have exactly 2 + max_group_size cells, where
    max_group_size is the size of the largest group of that summary; a data
    row is the key, the count and the sorted members of a group followed
    by empty cells up to that width. *)
Theorem summary_rows_padded (reader : csv_source)
    (input_file output_strains output_genes : string)
    (diags : list diag) (strains genes : table) :
  summarize_neighbors reader input_file output_strains output_genes
    = inr (diags, Some (strains, genes)) ->
  exists rows,
    reader input_file = inr rows
    /\ well_padded (accumulate rows ∅ ∅).1 strains
    /\ well_padded (accumulate rows ∅ ∅).2 genes.
Proof.
  unfold summarize_neighbors.
  destruct (reader input_file) as [e|rows]; [by destruct e|].
  destruct (accumulate rows ∅ ∅) as [strain_data gene_data] eqn:Hacc.
  destruct (decide (strain_data = ∅)); [done|].
  intros H. apply bind_inr in H as (t1 & H1 & H).
  apply bind_inr in H as (t2 & H2 & H). injection H as _ <- <-.
  exists rows. split; [done|]. rewrite Hacc. simpl.
  split; [exact (summary_well_padded _ _ _ _ _ H1)
         |exact (summary_well_padded _ _ _ _ _ H2)].
Qed.

Lemma summary_rows_padded_witness :
  exists rows,
    (inr scenario_rows : result (list csv_row)) = inr rows
    /\ well_padded (accumulate rows ∅ ∅).1
         (mkTable [Text "Strain"; Text "Neighbor_Count";
                   Text "Neighbor_1"; Text "Neighbor_2"]
            [[Text "S1"; Count 2; Text "G1"; Text "G2"];
             [Text "S2"; Count 1; Text "G1"; Text ""]])
    /\ well_padded (accumulate rows ∅ ∅).2
         (mkTable [Text "Gene_Name"; Text "Strain_Count";
                   Text "Strain_1"; Text "Strain_2"]
            [[Text "G1"; Count 2; Text "S1"; Text "S2"];
             [Text "G2"; Count 1; Text "S1"; Text ""]]).
Proof.
  apply (summary_rows_padded (fun _ => inr scenario_rows) "in.csv" "s.csv" "g.csv"
           [ReadingInput "in.csv"; WritingStrainSummary "s.csv"; WroteStrains 2;
            WritingGeneSummary "g.csv"; WroteGenes 2]).
  vm_compute. reflexivity.
Defined.

(** C8.  Rows that repeat a (goi_strain, neighbor_id) pair add nothing to
    either grouping: the outcome on an input, diagnostics and both summary
    tables, is the outcome on the input without the repeated rows. *)
Theorem duplicate_rows_collapse (reader : csv_source)
    (input_file output_strains output_genes : string) (rows : list csv_row) :
  reader input_file = inr rows ->
  summarize_neighbors reader input_file output_strains output_genes
  = summarize_neighbors (fun _ => inr (dedup_rows rows))
      input_file output_strains output_genes.
Proof.
  intros Hrows. unfold summarize_neighbors.
  by rewrite Hrows, accumulate_dedup_rows.
Qed.

Lemma duplicate_rows_collapse_witness :
  summarize_neighbors (fun _ => inr repeated_rows) "in.csv" "s.csv" "g.csv"
  = summarize_neighbors (fun _ => inr (dedup_rows repeated_rows))
      "in.csv" "s.csv" "g.csv".
Proof.
  apply (duplicate_rows_collapse (fun _ => inr repeated_rows)). reflexivity.
Defined.

(** C9.  A row whose goi_strain or neighbor_id is missing or empty is
    dropped: the two groupings are those of the input without it; and an
    input of such rows only ends in the short-circuit, with the diagnostic
    and no table. *)
Theorem invalid_rows_dropped :
  (forall (pre post : list csv_row) row strain_data gene_data,
      invalid_row row ->
      accumulate (pre ++ row :: post) strain_data gene_data
      = accumulate (pre ++ post) strain_data gene_data)
  /\ (forall (reader : csv_source) input_file output_strains output_genes rows,
        reader input_file = inr rows ->
        Forall invalid_row rows ->
        summarize_neighbors reader input_file output_strains output_genes
        = inr ([ReadingInput input_file; NoValidData], None)).
Proof.
  split.
  - intros pre post row sd gd Hrow.
    by rewrite !accumulate_app, accumulate_cons, absorb_invalid,
      <- surjective_pairing.
  - intros reader input_file output_strains output_genes rows Hrows Hall.
    unfold summarize_neighbors. rewrite Hrows, accumulate_invalid by done.
    by destruct (decide _).
Qed.

Lemma invalid_rows_dropped_witness :
  accumulate ([row_of "S1" "G1"] ++ row_of "S2" "" :: [row_of "S2" "G1"]) ∅ ∅
  = accumulate ([row_of "S1" "G1"] ++ [row_of "S2" "G1"]) ∅ ∅
  /\ summarize_neighbors
       (fun _ => inr [row_of "" "G1"; {[ "goi_strain" := "S1" ]}; row_of "S2" ""])
       "in.csv" "s.csv" "g.csv"
     = inr ([ReadingInput "in.csv"; NoValidData], None).
Proof.
  split.
  - apply (proj1 invalid_rows_dropped). right. right. right. reflexivity.
  - apply (proj2 invalid_rows_dropped
             (fun _ => inr [row_of "" "G1"; {[ "goi_strain" := "S1" ]}; row_of "S2" ""])
             "in.csv" "s.csv" "g.csv"
             [row_of "" "G1"; {[ "goi_strain" := "S1" ]}; row_of "S2" ""]).
    + reflexivity.
    + apply Forall_cons. split; [right; left; reflexivity|].
      apply Forall_cons. split; [right; right; left; reflexivity|].
      apply Forall_cons. split; [right; right; right; reflexivity|].
      apply Forall_nil_2.
Defined.

End Aggregation.

(** ** Exceptions *)

Section Faults.

Lemma item_in_range {A} (l : list A) (i : nat) :
  (i < length l)%nat -> exists x, l !! i = Some x /\ Py.item l i = inr x.
Proof.
  intros Hlt. destruct (lookup_lt_is_Some_2 l i Hlt) as [x Hx].
  exists x. unfold Py.item. by rewrite Hx.
Qed.

Lemma int_raises (s : string) (e : exn) : Py.int s = inl e -> e = ValueError.
Proof.
  unfold Py.int.
  destruct (match Py.strip s with
            | String "+" r => Py.digits 0 false r
            | String "-" r => option_map Z.opp (Py.digits 0 false r)
            | _ => Py.digits 0 false (Py.strip s)
            end); [done|]. by intros [= <-].
Qed.

(** Comment lines, blank lines and rows with fewer than nine fields are
    passed over. *)
Lemma short_row_skipped (line : string) :
  (length (Py.split tab (Py.strip line)) < 9)%nat ->
  parse_gff_line line = inr None.
Proof.
  intros Hlen. unfold parse_gff_line.
  destruct (Py.startswith line "#" || String.eqb (Py.strip line) ""); [done|].
  by apply Nat.ltb_lt in Hlen as ->.
Qed.

(** The only exception of [parse_gff_line]: a gene or CDS row with nine
    fields or more whose start or end column [int] rejects. *)
Lemma parse_gff_line_raises (line : string) (e : exn) :
  parse_gff_line line = inl e ->
  e = ValueError
  /\ exists feature_type start_text end_text,
       Py.split tab (Py.strip line) !! 2%nat = Some feature_type
       /\ (feature_type = "gene" \/ feature_type = "CDS")
       /\ Py.split tab (Py.strip line) !! 3%nat = Some start_text
       /\ Py.split tab (Py.strip line) !! 4%nat = Some end_text
       /\ (Py.int start_text = inl ValueError \/ Py.int end_text = inl ValueError).
Proof.
  unfold parse_gff_line.
  destruct (Py.startswith line "#" || String.eqb (Py.strip line) ""); [done|].
  set (parts := Py.split tab (Py.strip line)).
  destruct (length parts <? 9)%nat eqn:Hlen; [done|].
  apply Nat.ltb_ge in Hlen.
  destruct (item_in_range parts 0) as (contig & _ & ->); [lia|].
  destruct (item_in_range parts 2) as (feature_type & H2 & ->); [lia|].
  destruct (item_in_range parts 3) as (start_text & H3 & ->); [lia|].
  destruct (item_in_range parts 4) as (end_text & H4 & ->); [lia|].
  destruct (item_in_range parts 6) as (strand & _ & ->); [lia|].
  destruct (item_in_range parts 8) as (attributes_str & _ & ->); [lia|].
  cbn [bind].
  destruct (String.eqb feature_type "gene") eqn:Hgene;
    [|destruct (String.eqb feature_type "CDS") eqn:Hcds]; cbn [orb negb];
    try done.
  - apply String.eqb_eq in Hgene.
    destruct (Py.int start_text) as [e1|start] eqn:Hs; cbn [bind].
    { intros [= <-]. pose proof (int_raises _ _ Hs) as ->.
      split; [done|]. exists feature_type, start_text, end_text. tauto. }
    destruct (Py.int end_text) as [e2|end_] eqn:He; cbn [bind].
    { intros [= <-]. pose proof (int_raises _ _ He) as ->.
      split; [done|]. exists feature_type, start_text, end_text. tauto. }
    by rewrite !attribute_value.
  - apply String.eqb_eq in Hcds.
    destruct (Py.int start_text) as [e1|start] eqn:Hs; cbn [bind].
    { intros [= <-]. pose proof (int_raises _ _ Hs) as ->.
      split; [done|]. exists feature_type, start_text, end_text. tauto. }
    destruct (Py.int end_text) as [e2|end_] eqn:He; cbn [bind].
    { intros [= <-]. pose proof (int_raises _ _ He) as ->.
      split; [done|]. exists feature_type, start_text, end_text. tauto. }
    by rewrite !attribute_value.
Qed.

(** C2 (the code at the failing input).  A gene row with nine fields whose
    start column is not a number makes [parse_gff_line] raise; nothing
    catches the exception, so [parse_gff] and the whole first stage end
    with it. *)
Theorem non_integer_start_raises :
  parse_gff_line
    (gff_row ["c1"; "prokka"; "gene"; "abc"; "10"; "."; "+"; "."; "ID=g1"])
  = inl ValueError
  /\ parse_gff bad_start_files "ann/S1/a.gff" = inl ValueError
  /\ extract_main bad_start_files "goi.fasta" "ann" bad_start_walk 500 "out.csv"
     = inl ValueError.
Proof. repeat split; vm_compute; reflexivity. Qed.

(** An exception of [open] on the FASTA file leaves the first stage. *)
Lemma extract_main_open_error (fs : filesystem) (fasta annotations : string)
    (walk : list (string * list string * list string)) (window : Z)
    (output : string) (e : exn) :
  fs fasta = inl e -> extract_main fs fasta annotations walk window output = inl e.
Proof. intros H. unfold extract_main, parse_goi_fasta. by rewrite H. Qed.

(** The second stage reports an input that cannot be opened or read and
    returns. *)
Lemma summarize_neighbors_read_error (reader : csv_source)
    (input_file output_strains output_genes : string) (e : exn) :
  reader input_file = inl e ->
  exists d,
    summarize_neighbors reader input_file output_strains output_genes
    = inr ([ReadingInput input_file; d], None)
    /\ (d = InputNotFound input_file \/ d = ErrorReading e).
Proof.
  intros H. unfold summarize_neighbors. rewrite H.
  destruct e; eexists; (split; [reflexivity|tauto]).
Qed.

(** C3 (the code at the failing input).  With the FASTA file missing, the
    first stage ends with the exception of [open], uncaught and without a
    diagnostic of its own; with the neighbour table missing, the second
    stage prints its diagnostic and returns. *)
Theorem missing_fasta_unhandled :
  extract_main two_files "goi.fasta" "ann" two_files_walk 500 "out.csv"
  = inl FileNotFoundError
  /\ summarize_neighbors (fun _ => inl FileNotFoundError) "in.csv" "s.csv" "g.csv"
     = inr ([ReadingInput "in.csv"; InputNotFound "in.csv"], None).
Proof. split; reflexivity. Qed.

End Faults.


(** * Further properties of the two scripts *)

(** ** Rows of a GFF file *)

Section GffRows.

Implicit Types (contig_db : gmap string (list Feature)).

(** A line of an annotation file is passed over, without an exception, when
    it is a comment, is blank, has fewer than nine fields, or has a third
    field other than gene and CDS, whatever its coordinate columns hold. *)
Theorem gff_line_passed_over (line : string) :
  Py.startswith line "#" = true
  \/ Py.strip line = ""
  \/ (length (Py.split tab (Py.strip line)) < 9)%nat
  \/ (exists feature_type,
        Py.split tab (Py.strip line) !! 2%nat = Some feature_type
        /\ feature_type <> "gene" /\ feature_type <> "CDS") ->
  parse_gff_line line = inr None.
Proof.
  unfold parse_gff_line. intros [Hc|[Hb|[Hs|(ft & Hft & Hg & Hc)]]].
  - by rewrite Hc.
  - rewrite Hb. by rewrite orb_true_r.
  - destruct (_ || _); [done|]. by apply Nat.ltb_lt in Hs as ->.
  - destruct (_ || _); [done|].
    destruct (length _ <? 9)%nat; [done|].
    unfold Py.item at 1. rewrite Hft. cbn [bind ret].
    apply String.eqb_neq in Hg, Hc. by rewrite Hg, Hc.
Qed.

(** A region row whose start column is not a number. *)
Lemma gff_line_passed_over_witness :
  parse_gff_line
    (gff_row ["c1"; "prokka"; "region"; "abc"; "10"; "."; "+"; "."; "ID=r1"])
  = inr None.
Proof.
  apply gff_line_passed_over. right. right. right.
  exists "region". split; [reflexivity|]. split; discriminate.
Defined.

(** The only exception of a line: a gene or CDS row with nine fields or more
    whose start or end column [int] rejects, and the exception is
    [ValueError]; no index is ever out of range. *)
Theorem gff_line_only_raises_on_coordinates (line : string) (e : exn) :
  parse_gff_line line = inl e ->
  e = ValueError
  /\ (9 <= length (Py.split tab (Py.strip line)))%nat
  /\ exists feature_type start_text end_text,
       Py.split tab (Py.strip line) !! 2%nat = Some feature_type
       /\ (feature_type = "gene" \/ feature_type = "CDS")
       /\ Py.split tab (Py.strip line) !! 3%nat = Some start_text
       /\ Py.split tab (Py.strip line) !! 4%nat = Some end_text
       /\ (Py.int start_text = inl ValueError \/ Py.int end_text = inl ValueError).
Proof.
  intros H. destruct (parse_gff_line_raises line e H) as [He Hrow].
  split; [done|]. split; [|done].
  destruct (decide (9 <= length (Py.split tab (Py.strip line)))%nat) as [|Hlt];
    [done|].
  rewrite short_row_skipped in H by lia. done.
Qed.

Lemma gff_line_only_raises_on_coordinates_witness :
  ValueError = ValueError
  /\ (9 <= length (Py.split tab (Py.strip
            (gff_row ["c1"; "prokka"; "CDS"; "7"; "1e3"; "."; "+"; "."; "ID=g1"]))))%nat
  /\ exists feature_type start_text end_text,
       Py.split tab (Py.strip
         (gff_row ["c1"; "prokka"; "CDS"; "7"; "1e3"; "."; "+"; "."; "ID=g1"]))
         !! 2%nat = Some feature_type
       /\ (feature_type = "gene" \/ feature_type = "CDS")
       /\ Py.split tab (Py.strip
            (gff_row ["c1"; "prokka"; "CDS"; "7"; "1e3"; "."; "+"; "."; "ID=g1"]))
            !! 3%nat = Some start_text
       /\ Py.split tab (Py.strip
            (gff_row ["c1"; "prokka"; "CDS"; "7"; "1e3"; "."; "+"; "."; "ID=g1"]))
            !! 4%nat = Some end_text
       /\ (Py.int start_text = inl ValueError \/ Py.int end_text = inl ValueError).
Proof.
  apply (gff_line_only_raises_on_coordinates
           (gff_row ["c1"; "prokka"; "CDS"; "7"; "1e3"; "."; "+"; "."; "ID=g1"])).
  reflexivity.
Defined.

(** A retained row has the type gene or CDS. *)
Lemma parse_gff_line_type (line contig : string) (f : Feature) :
  parse_gff_line line = inr (Some (contig, f)) ->
  f_type f = "gene" \/ f_type f = "CDS".
Proof.
  unfold parse_gff_line.
  destruct (_ || _); [done|]. destruct (length _ <? 9)%nat; [done|].
  intros H. apply bind_inr in H as (feature_type & _ & H).
  destruct (String.eqb feature_type "gene") eqn:Hg;
    [|destruct (String.eqb feature_type "CDS") eqn:Hc]; cbn [orb negb] in H;
    try done.
  - apply String.eqb_eq in Hg.
    apply bind_inr in H as (? & _ & H). apply bind_inr in H as (? & _ & H).
    apply bind_inr in H as (? & _ & H). apply bind_inr in H as (? & _ & H).
    apply bind_inr in H as (? & _ & H). apply bind_inr in H as (? & _ & H).
    apply bind_inr in H as (? & _ & H). apply bind_inr in H as (? & _ & H).
    apply bind_inr in H as (? & _ & H). injection H as _ <-. by left.
  - apply String.eqb_eq in Hc.
    apply bind_inr in H as (? & _ & H). apply bind_inr in H as (? & _ & H).
    apply bind_inr in H as (? & _ & H). apply bind_inr in H as (? & _ & H).
    apply bind_inr in H as (? & _ & H). apply bind_inr in H as (? & _ & H).
    apply bind_inr in H as (? & _ & H). apply bind_inr in H as (? & _ & H).
    apply bind_inr in H as (? & _ & H). injection H as _ <-. by right.
Qed.

Lemma features_on_elem (contig : string) (rows : list (string * Feature))
    (f : Feature) :
  f ∈ features_on contig rows -> (contig, f) ∈ rows.
Proof.
  induction rows as [|[c g] rest IH]; simpl; [by intros ?%elem_of_nil|].
  destruct (String.eqb c contig) eqn:Hc.
  - apply String.eqb_eq in Hc as ->.
    intros [->|?]%elem_of_cons; [by left|]. right. by apply IH.
  - intros ?. right. by apply IH.
Qed.

(** The loop over the lines appends, for every contig, the features of the
    retained rows on it, in file order. *)
Lemma parse_gff_lines_grouped (lines : list string) contig_db contig_db' :
  parse_gff_lines lines contig_db = inr contig_db' ->
  exists rows,
    retained_rows lines = inr rows
    /\ forall contig,
         contig_db' !! contig =
           match features_on contig rows with
           | [] => contig_db !! contig
           | fs => Some (default [] (contig_db !! contig) ++ fs)
           end.
Proof.
  revert contig_db. induction lines as [|line rest IH]; intros db; simpl.
  - intros [= <-]. by exists [].
  - intros H. apply bind_inr in H as (row & Hline & H). rewrite Hline. simpl.
    destruct row as [[c f]|].
    + destruct (IH _ H) as (rows & -> & Hrows). simpl.
      exists ((c, f) :: rows). split; [done|]. intros contig.
      rewrite Hrows. unfold append_feature. simpl.
      destruct (String.eqb c contig) eqn:Hc.
      * apply String.eqb_eq in Hc as ->. rewrite lookup_insert_eq. simpl.
        destruct (features_on contig rows) as [|g gs].
        -- done.
        -- by rewrite <- app_assoc.
      * apply String.eqb_neq in Hc. by rewrite lookup_insert_ne.
    + destruct (IH _ H) as (rows & -> & Hrows). simpl. by exists rows.
Qed.

Lemma retained_rows_types (lines : list string) (rows : list (string * Feature)) :
  retained_rows lines = inr rows ->
  Forall (fun r => f_type r.2 = "gene" \/ f_type r.2 = "CDS") rows.
Proof.
  revert rows. induction lines as [|line rest IH]; intros rows; simpl.
  - by intros [= <-].
  - intros H. apply bind_inr in H as (row & Hline & H).
    apply bind_inr in H as (later & Hlater & H). injection H as <-.
    destruct row as [[c f]|]; [|by apply IH].
    constructor; [by eapply parse_gff_line_type|by apply IH].
Qed.

(** The contig index of a file groups the retained rows by their first
    field and keeps the file order inside a contig; a contig is a key of the
    index only if a row was retained for it. *)
Theorem parse_gff_groups_in_file_order (fs : filesystem) (gff_file : string)
    contig_db :
  parse_gff fs gff_file = inr contig_db ->
  exists lines rows,
    fs gff_file = inr lines
    /\ retained_rows lines = inr rows
    /\ forall contig,
         contig_db !! contig =
           match features_on contig rows with
           | [] => None
           | fs => Some fs
           end.
Proof.
  unfold parse_gff. intros H. apply bind_inr in H as (lines & Hopen & H).
  destruct (parse_gff_lines_grouped _ _ _ H) as (rows & Hrows & Hlookup).
  exists lines, rows. split; [done|]. split; [done|].
  intros contig. rewrite Hlookup, lookup_empty. done.
Qed.

Lemma parse_gff_groups_in_file_order_witness :
  exists lines rows,
    two_files "ann/S1/a.gff" = inr lines
    /\ retained_rows lines = inr rows
    /\ forall contig,
         ({[ "c1" := [mkFeature "gene" 1 10 "+" "g1" "N/A"] ]}
            : gmap string (list Feature)) !! contig =
           match features_on contig rows with
           | [] => None
           | fs => Some fs
           end.
Proof.
  apply (parse_gff_groups_in_file_order two_files "ann/S1/a.gff"). reflexivity.
Defined.

(** Every feature of the contig index of a file is a gene or a CDS, and no
    contig of the index has an empty list. *)
Theorem parse_gff_keeps_genes_and_cds (fs : filesystem) (gff_file contig : string)
    contig_db (genes : list Feature) :
  parse_gff fs gff_file = inr contig_db ->
  contig_db !! contig = Some genes ->
  genes <> [] /\ Forall (fun f => f_type f = "gene" \/ f_type f = "CDS") genes.
Proof.
  unfold parse_gff. intros H Hgenes. apply bind_inr in H as (lines & _ & H).
  destruct (parse_gff_lines_grouped _ _ _ H) as (rows & Hrows & Hlookup).
  rewrite Hlookup, lookup_empty in Hgenes.
  pose proof (retained_rows_types _ _ Hrows) as Htypes.
  rewrite Forall_forall in Htypes.
  destruct (features_on contig rows) as [|g gs] eqn:Hon; [done|].
  injection Hgenes as <-. split; [done|].
  apply Forall_forall. intros f Hf. rewrite <- Hon in Hf.
  apply features_on_elem in Hf. by apply (Htypes _ Hf).
Qed.

Lemma parse_gff_keeps_genes_and_cds_witness :
  [mkFeature "gene" 5 20 "-" "g2" "N/A"] <> []
  /\ Forall (fun f => f_type f = "gene" \/ f_type f = "CDS")
       [mkFeature "gene" 5 20 "-" "g2" "N/A"].
Proof.
  apply (parse_gff_keeps_genes_and_cds two_files "ann/S1/b.gff" "c2"
           {[ "c2" := [mkFeature "gene" 5 20 "-" "g2" "N/A"] ]}); reflexivity.
Defined.

End GffRows.

(** ** Attribute values *)

Section AttributeValues.

Lemma prefix_app (p x y : string) :
  String.prefix p x = true -> String.prefix p (x +:+ y) = true.
Proof.
  revert x. induction p as [|c p IH]; intros x.
  - intros _. by destruct (x +:+ y).
  - destruct x as [|d x]; [done|].
    change (String d x +:+ y) with (String d (x +:+ y)). simpl.
    destruct (ascii_dec c d); [|done]. apply IH.
Qed.

(** The text before the first occurrence has no occurrence. *)
Lemma partition_before_clean (sep s b a : string) :
  sep <> EmptyString -> Py.partition sep s = Some (b, a) ->
  Py.contains sep b = false.
Proof.
  intros Hsep. revert b. induction s as [|c s IH]; intros b; [done|].
  cbn [Py.partition]. destruct (String.prefix sep (String c s)) eqn:Hp.
  - intros [= <- <-]. simpl. by destruct sep.
  - destruct (Py.partition sep s) as [[b' a']|] eqn:Hs; [|done].
    intros [= <- <-]. cbn [Py.contains]. rewrite (IH b' eq_refl), orb_false_r.
    apply partition_parts in Hs. subst s.
    destruct (String.prefix sep (String c b')) eqn:Hb; [|done].
    apply (prefix_app _ _ (sep +:+ a')) in Hb.
    change (String c b' +:+ sep +:+ a') with (String c (b' +:+ sep +:+ a')) in Hb.
    congruence.
Qed.

Lemma before_clean (sep s : string) :
  sep <> EmptyString -> Py.contains sep (before sep s) = false.
Proof.
  intros Hsep. unfold before.
  pose proof (partition_index sep s Hsep) as Hpart.
  pose proof (contains_index sep s Hsep) as Hin.
  destruct (String.index 0 sep s) as [n|]; [|done].
  by eapply partition_before_clean.
Qed.

Lemma value_after_clean (key attributes_str : string) :
  Py.contains ";" (value_after key attributes_str) = false.
Proof.
  unfold value_after. destruct (String.index 0 key attributes_str); [|done].
  by apply before_clean.
Qed.

(** What a retained row stores, field by field. *)
Lemma parse_gff_line_inv (line contig : string) (f : Feature) :
  parse_gff_line line = inr (Some (contig, f)) ->
  exists start_text end_text attributes_str,
    Py.split tab (Py.strip line) !! 0%nat = Some contig
    /\ Py.split tab (Py.strip line) !! 2%nat = Some (f_type f)
    /\ Py.split tab (Py.strip line) !! 3%nat = Some start_text
    /\ Py.int start_text = inr (f_start f)
    /\ Py.split tab (Py.strip line) !! 4%nat = Some end_text
    /\ Py.int end_text = inr (f_end f)
    /\ Py.split tab (Py.strip line) !! 6%nat = Some (f_strand f)
    /\ Py.split tab (Py.strip line) !! 8%nat = Some attributes_str
    /\ f_id f = value_after "ID=" attributes_str
    /\ f_product f = value_after "product=" attributes_str.
Proof.
  unfold parse_gff_line.
  destruct (_ || _); [done|]. destruct (length _ <? 9)%nat; [done|].
  intros H. apply bind_inr in H as (feature_type & Htype & H).
  destruct (negb _); [done|].
  apply bind_inr in H as (contig' & Hcontig & H).
  apply bind_inr in H as (start_text & Hstart_text & H).
  apply bind_inr in H as (start & Hstart & H).
  apply bind_inr in H as (end_text & Hend_text & H).
  apply bind_inr in H as (end_ & Hend & H).
  apply bind_inr in H as (strand & Hstrand & H).
  apply bind_inr in H as (attributes_str & Hattr & H).
  rewrite !attribute_value in H by done.
  injection H as <- <-. exists start_text, end_text, attributes_str.
  apply item_inr in Htype, Hcontig, Hstart_text, Hend_text, Hstrand, Hattr.
  by repeat split.
Qed.

(** The id and the product of a stored feature never contain [";"]: a
    semicolon ends the value. *)
Theorem feature_id_and_product_without_semicolon (line contig : string)
    (f : Feature) :
  parse_gff_line line = inr (Some (contig, f)) ->
  Py.contains ";" (f_id f) = false /\ Py.contains ";" (f_product f) = false.
Proof.
  intros H.
  destruct (parse_gff_line_inv _ _ _ H)
    as (? & ? & attributes_str & _ & _ & _ & _ & _ & _ & _ & _ & -> & ->).
  split; apply value_after_clean.
Qed.

Lemma feature_id_and_product_without_semicolon_witness :
  Py.contains ";" (f_id (mkFeature "CDS" 10 90 "+" "cds1.locus" "x")) = false
  /\ Py.contains ";" (f_product (mkFeature "CDS" 10 90 "+" "cds1.locus" "x")) = false.
Proof.
  apply (feature_id_and_product_without_semicolon
           (gff_row ["NODE_1"; "prokka"; "CDS"; "10"; "90"; "."; "+"; "0";
                     "ID=cds1.locusID=7;product=x"]) "NODE_1").
  reflexivity.
Defined.

End AttributeValues.

(** ** Genes of interest *)

Section Gois.

Lemma not_bar_clean (s : string) :
  string_forall not_bar s = true -> Py.contains "|" s = false.
Proof.
  induction s as [|c s IH]; [done|].
  cbn [string_forall Py.contains]. intros [Hc Hs]%andb_prop.
  rewrite (IH Hs), orb_false_r. unfold not_bar in Hc.
  apply negb_true_iff, Ascii.eqb_neq in Hc.
  change (String.prefix "|" (String c s))
    with (if ascii_dec "|" c then String.prefix "" s else false).
  destruct (ascii_dec "|" c) as [Heq|]; [by destruct Hc|done].
Qed.

Lemma match_here_names (s strain contig d1 d2 : string) :
  match_here s = Some (strain, contig, d1, d2) ->
  (strain <> "" /\ Py.contains "|" strain = false)
  /\ (contig <> "" /\ Py.contains "|" contig = false).
Proof.
  unfold match_here.
  destruct (literal ">" s) as [s1|]; [|done].
  destruct (plus not_bar s1) as [[g1 s2]|] eqn:H1; [|done].
  destruct (literal "|contig=" s2) as [s3|]; [|done].
  destruct (plus not_bar s3) as [[g2 s4]|] eqn:H2; [|done].
  destruct (literal "|" s4) as [s5|]; [|done].
  destruct (lazy_coords s5) as [[e1 e2]|]; [|done].
  intros [= <- <- <- <-].
  apply plus_run in H1 as [? ?%not_bar_clean], H2 as [? ?%not_bar_clean]. done.
Qed.

Lemma search_names (line strain contig d1 d2 : string) :
  HEADER_REGEX_search line = Some (strain, contig, d1, d2) ->
  (strain <> "" /\ Py.contains "|" strain = false)
  /\ (contig <> "" /\ Py.contains "|" contig = false).
Proof.
  induction line as [|c line IH]; [done|].
  cbn [HEADER_REGEX_search].
  destruct (match_here (String c line)) as [[[[? ?] ?] ?]|] eqn:Hm.
  - intros [= <- <- <- <-]. by apply match_here_names in Hm.
  - apply IH.
Qed.

Lemma digits_nonneg (s : string) (acc : Z) (after_digit : bool) (z : Z) :
  0 <= acc -> Py.digits acc after_digit s = Some z -> 0 <= z.
Proof.
  revert acc after_digit. induction s as [|c s IH]; intros acc b Hacc; simpl.
  - destruct b; [|done]. by intros [= <-].
  - destruct (Py.isdigit c).
    + apply IH. lia.
    + destruct (Ascii.eqb c "_"); [|done]. destruct b; [|done]. by apply IH.
Qed.

(** What [\d+] matched converts to a number that is not negative. *)
Lemma int_digit_run_nonneg (s : string) (z : Z) :
  digit_run s -> Py.int s = inr z -> 0 <= z.
Proof.
  intros [Hne Hs]. unfold Py.int. rewrite strip_digits by done.
  destruct s as [|c s]; [done|].
  pose proof Hs as Hs'. simpl in Hs'. apply andb_prop in Hs' as [Hc _].
  destruct (digit_not_sign c Hc) as [Hp Hm].
  assert (match String c s with
          | String "+" r => Py.digits 0 false r
          | String "-" r => option_map Z.opp (Py.digits 0 false r)
          | _ => Py.digits 0 false (String c s)
          end = Py.digits 0 false (String c s)) as ->.
  { clear -Hp Hm. by destruct c as [[] [] [] [] [] [] [] []]. }
  destruct (Py.digits 0 false (String c s)) as [z'|] eqn:Hd; [|done].
  intros [= <-]. by eapply digits_nonneg.
Qed.

Lemma strip_keeps_first (c : ascii) (s : string) :
  Py.isspace c = false -> exists r, Py.strip (String c s) = String c r.
Proof.
  intros Hc. unfold Py.strip. simpl. rewrite Hc. simpl. rewrite Hc.
  destruct (Py.rstrip s); by eexists.
Qed.

Lemma startswith_char (c d : ascii) (s : string) :
  Py.startswith (String c s) (String d "") = true <-> d = c.
Proof.
  unfold Py.startswith.
  change (String.prefix (String d "") (String c s))
    with (if ascii_dec d c then String.prefix "" s else false).
  destruct (ascii_dec d c); split; try done. by destruct s.
Qed.

(** The three outcomes of a line. *)
Lemma parse_goi_line_cases (line : string) :
  (Py.startswith line ">" = false /\ parse_goi_line line = inr ([], []))
  \/ (Py.startswith line ">" = true
      /\ parse_goi_line line = inr ([HeaderNotParsed (Py.strip line)], []))
  \/ (Py.startswith line ">" = true
      /\ exists strain contig raw1 raw2 a b,
           HEADER_REGEX_search line = Some (strain, contig, raw1, raw2)
           /\ Py.int raw1 = inr a /\ Py.int raw2 = inr b
           /\ parse_goi_line line
              = inr ([], [mkGoi strain contig (Z.min a b) (Z.max a b) (Py.strip line)])).
Proof.
  unfold parse_goi_line. destruct (Py.startswith line ">") eqn:Hstart; [|by left].
  right. destruct (HEADER_REGEX_search line) as [[[[strain contig] raw1] raw2]|]
    eqn:Hsearch; [|by left].
  right. split; [done|].
  destruct (search_digits _ _ _ _ _ Hsearch) as [H1 H2].
  destruct (int_digit_run raw1 H1) as [a Ha].
  destruct (int_digit_run raw2 H2) as [b Hb].
  exists strain, contig, raw1, raw2, a, b. by rewrite Ha, Hb.
Qed.




Lemma parse_goi_line_fields (line : string) (diags : list diag) (gois : list Goi) :
  parse_goi_line line = inr (diags, gois) ->
  Forall (fun g =>
            (g_strain g <> "" /\ Py.contains "|" (g_strain g) = false)
            /\ (g_contig g <> "" /\ Py.contains "|" (g_contig g) = false)
            /\ 0 <= g_start g
            /\ Py.startswith (g_header g) ">" = true) gois.
Proof.
  destruct (parse_goi_line_cases line)
    as [[Hs ->]|[[Hs ->]|[Hs (strain & contig & raw1 & raw2 & a & b
                               & Hsearch & Ha & Hb & ->)]]].
  - by intros [= <- <-].
  - by intros [= <- <-].
  - intros [= <- <-]. constructor; [|done]. simpl.
    destruct (search_names _ _ _ _ _ Hsearch) as [Hstrain Hcontig].
    destruct (search_digits _ _ _ _ _ Hsearch) as [H1 H2].
    pose proof (int_digit_run_nonneg _ _ H1 Ha).
    pose proof (int_digit_run_nonneg _ _ H2 Hb).
    repeat split; try tauto; [lia|].
    destruct line as [|c line]; [done|].
    apply startswith_char in Hs as <-.
    destruct (strip_keeps_first ">" line eq_refl) as [r ->].
    by apply startswith_char.
Qed.

(** Every record of [parse_goi_fasta] has a strain and a contig that are
    not empty and hold no ["|"], a start that is not negative, and a header
    that begins with [">"]. *)
Theorem parsed_goi_fields (fs : filesystem) (fasta_file : string)
    (diags : list diag) (gois : list Goi) :
  parse_goi_fasta fs fasta_file = inr (diags, gois) ->
  Forall (fun g =>
            (g_strain g <> "" /\ Py.contains "|" (g_strain g) = false)
            /\ (g_contig g <> "" /\ Py.contains "|" (g_contig g) = false)
            /\ 0 <= g_start g
            /\ Py.startswith (g_header g) ">" = true) gois.
Proof.
  unfold parse_goi_fasta. intros H. apply bind_inr in H as (lines & _ & H).
  apply bind_inr in H as ([d g] & Hlines & H). injection H as _ <-. simpl.
  clear fs fasta_file diags. revert d g Hlines.
  induction lines as [|line rest IH]; intros d g; simpl.
  - by intros [= <- <-].
  - intros H. apply bind_inr in H as ([d1 g1] & Hline & H).
    apply bind_inr in H as ([d2 g2] & Hrest & H). injection H as <- <-.
    apply Forall_app. split; [by eapply parse_goi_line_fields|by eapply IH].
Qed.

Lemma parsed_goi_fields_witness :
  Forall (fun g =>
            (g_strain g <> "" /\ Py.contains "|" (g_strain g) = false)
            /\ (g_contig g <> "" /\ Py.contains "|" (g_contig g) = false)
            /\ 0 <= g_start g
            /\ Py.startswith (g_header g) ">" = true)
    [mkGoi "S1" "c1" 3 9 ">S1|contig=c1|SubjectStart=3_SubjectEnd=9"].
Proof.
  apply (parsed_goi_fields mixed_fasta "goi.fasta"
           [HeaderNotParsed ">S2 no coordinates"; FoundGois 1]).
  reflexivity.
Defined.

End Gois.

(** ** The neighbour table *)

Section NeighborTable.

Implicit Types (goi : Goi) (gene : Feature) (r : Neighbor).
Implicit Types (annotations_db : gmap string (gmap string (list Feature))).

(** The genes of interest are handled one by one and in order: the
    diagnostics and the records of a list of genes of interest are those of
    its first part followed by those of its second part. *)
Theorem find_neighbors_app (gois1 gois2 : list Goi) annotations_db (window_size : Z) :
  find_neighbors (gois1 ++ gois2) annotations_db window_size =
    ((find_neighbors gois1 annotations_db window_size).1
       ++ (find_neighbors gois2 annotations_db window_size).1,
     (find_neighbors gois1 annotations_db window_size).2
       ++ (find_neighbors gois2 annotations_db window_size).2).
Proof.
  induction gois1 as [|goi rest IH]; simpl.
  - by destruct (find_neighbors gois2 annotations_db window_size).
  - rewrite IH. simpl. by rewrite !app_assoc.
Qed.

Lemma neighbors_of_unresolved goi annotations_db (window_size : Z) :
  resolves annotations_db goi = false ->
  (neighbors_of goi annotations_db window_size).2 = []
  /\ length (neighbors_of goi annotations_db window_size).1 = 1%nat.
Proof.
  unfold resolves, neighbors_of.
  destruct (annotations_db !! g_strain goi) as [sa|]; [|done].
  by destruct (sa !! g_contig goi).
Qed.

Lemma neighbors_of_resolved goi annotations_db (window_size : Z) :
  resolves annotations_db goi = true ->
  (neighbors_of goi annotations_db window_size).1 = [].
Proof.
  unfold resolves, neighbors_of.
  destruct (annotations_db !! g_strain goi) as [sa|]; [|done].
  by destruct (sa !! g_contig goi).
Qed.

(** A gene of interest whose strain or contig is not in the index gives one
    warning and no record, and the others give no warning: the warnings are
    as many as the unresolved genes of interest, and the records are those
    of the run over the resolved ones alone. *)
Theorem unresolved_gois_only_warn (gois : list Goi) annotations_db (window_size : Z) :
  length (find_neighbors gois annotations_db window_size).1
  = length (List.filter (fun goi => negb (resolves annotations_db goi)) gois)
  /\ (find_neighbors gois annotations_db window_size).2
     = (find_neighbors (List.filter (resolves annotations_db) gois)
          annotations_db window_size).2.
Proof.
  induction gois as [|goi rest [IHd IHr]]; [done|].
  cbn [find_neighbors List.filter fst snd].
  rewrite length_app, IHd, IHr.
  destruct (resolves annotations_db goi) eqn:Hres; cbn [negb find_neighbors fst snd].
  - by rewrite (neighbors_of_resolved _ _ _ Hres).
  - destruct (neighbors_of_unresolved goi annotations_db window_size Hres)
      as [-> ->]. done.
Qed.









Lemma scan_contig_sublist goi (window_start window_end : Q) (genes : list Feature) :
  exists kept,
    kept `sublist_of` genes
    /\ scan_contig goi window_start window_end genes = neighbor_record goi <$> kept.
Proof.
  induction genes as [|gene rest (kept & Hsub & IH)].
  - exists []. by split.
  - rewrite scan_contig_cons, IH.
    destruct (passes goi window_start window_end gene).
    + exists (gene :: kept). split; [by constructor|done].
    + exists kept. split; [by constructor|done].
Qed.

(** The records of a gene of interest follow the order of the features of
    its contig, with at most one record for each stored feature. *)
Theorem neighbors_in_file_order goi annotations_db (window_size : Z)
    (strain_annotations : gmap string (list Feature)) (genes : list Feature) :
  annotations_db !! g_strain goi = Some strain_annotations ->
  strain_annotations !! g_contig goi = Some genes ->
  exists kept,
    kept `sublist_of` genes
    /\ find_neighbors [goi] annotations_db window_size
       = ([], neighbor_record goi <$> kept).
Proof.
  intros Hsa Hgenes. simpl. unfold neighbors_of. rewrite Hsa, Hgenes. simpl.
  destruct (scan_contig_sublist goi
              (midpoint (g_start goi) (g_end goi) - inject_Z window_size)%Q
              (midpoint (g_start goi) (g_end goi) + inject_Z window_size)%Q genes)
    as (kept & Hsub & ->).
  exists kept. split; [done|]. by rewrite app_nil_r.
Qed.

Lemma neighbors_in_file_order_witness :
  exists kept,
    kept `sublist_of` [feature_at "b" 1500 1700; feature_at "far" 1 3;
                       feature_at "a" 1200 1400]
    /\ find_neighbors [scenario_goi]
         (scenario_db [feature_at "b" 1500 1700; feature_at "far" 1 3;
                       feature_at "a" 1200 1400]) 500
       = ([], neighbor_record scenario_goi <$> kept).
Proof.
  apply (neighbors_in_file_order scenario_goi _ 500
           {[ "C1" := [feature_at "b" 1500 1700; feature_at "far" 1 3;
                       feature_at "a" 1200 1400] ]}); reflexivity.
Defined.

End NeighborTable.

(** ** The two groupings *)

Section Groupings.

Implicit Types (data strain_data gene_data : groups) (row : csv_row).
Implicit Types (p : option string * option string) (st : groups * groups).

Lemma members_add_member (k m i x : string) data :
  x ∈ members (add_member k m data) i <-> x ∈ members data i \/ (i = k /\ x = m).
Proof.
  unfold members, add_member. destruct (decide (k = i)) as [->|Hne].
  - rewrite lookup_insert_eq. simpl. rewrite elem_of_union, elem_of_singleton.
    tauto.
  - rewrite lookup_insert_ne by done. split; [tauto|].
    intros [?|[-> _]]; done.
Qed.

Lemma members_absorb p st (s n : string) :
  (n ∈ members (absorb p st).1 s
   <-> n ∈ members st.1 s \/ (p = (Some s, Some n) /\ s <> "" /\ n <> ""))
  /\ (s ∈ members (absorb p st).2 n
      <-> s ∈ members st.2 n \/ (p = (Some s, Some n) /\ s <> "" /\ n <> "")).
Proof.
  destruct p as [[[|c s']|] [[|d n']|]]; cbn [absorb fst snd];
    try (split; (split; [tauto|]);
         (intros [?|(Heq & Hs & Hn)]; [done|exfalso; congruence])).
  rewrite !members_add_member. split; split.
  - intros [?|[-> ->]]; [by left|]. right. done.
  - intros [?|[[= <- <-] _]]; [by left|]. by right.
  - intros [?|[-> ->]]; [by left|]. right. done.
  - intros [?|[[= <- <-] _]]; [by left|]. by right.
Qed.

(** The members of a group after the loop: those it had, and the second
    field of every row whose fields are both present and not empty. *)
Lemma members_accumulate (rows : list csv_row) st (s n : string) :
  (n ∈ members (accumulate rows st.1 st.2).1 s
   <-> n ∈ members st.1 s
       \/ exists row, row ∈ rows /\ pair_of row = (Some s, Some n)
                      /\ s <> "" /\ n <> "")
  /\ (s ∈ members (accumulate rows st.1 st.2).2 n
      <-> s ∈ members st.2 n
          \/ exists row, row ∈ rows /\ pair_of row = (Some s, Some n)
                         /\ s <> "" /\ n <> "").
Proof.
  revert st. induction rows as [|row rest IH]; intros st.
  - simpl. split; (split; [tauto|]);
      (intros [?|(? & ?%elem_of_nil & _)]; done).
  - rewrite accumulate_cons, <- surjective_pairing.
    destruct (IH (absorb (pair_of row) st)) as [IH1 IH2].
    destruct (members_absorb (pair_of row) st s n) as [Ha1 Ha2].
    rewrite IH1, IH2, Ha1, Ha2. split; split.
    + intros [[?|?]|(r & ? & ?)]; [by left|right; exists row|right; exists r];
        (split; [|done]); [by left|by right].
    + intros [?|(r & [->|?]%elem_of_cons & ?)];
        [by left; left|by left; right|right; by exists r].
    + intros [[?|?]|(r & ? & ?)]; [by left|right; exists row|right; exists r];
        (split; [|done]); [by left|by right].
    + intros [?|(r & [->|?]%elem_of_cons & ?)];
        [by left; left|by left; right|right; by exists r].
Qed.

(** A neighbour id is in the group of a strain exactly when some row of the
    input has that strain and that id, both present and not empty. *)
Theorem strain_group_members (rows : list csv_row) (strain neighbor : string) :
  neighbor ∈ members (accumulate rows ∅ ∅).1 strain
  <-> exists row,
        row ∈ rows
        /\ row !! "goi_strain" = Some strain
        /\ row !! "neighbor_id" = Some neighbor
        /\ strain <> "" /\ neighbor <> "".
Proof.
  destruct (members_accumulate rows (∅, ∅) strain neighbor) as [H _].
  simpl in H. rewrite H. unfold members at 1. rewrite lookup_empty. simpl.
  unfold pair_of. split.
  - intros [?%not_elem_of_empty|(row & ? & [= ? ?] & ? & ?)]; [done|].
    by exists row.
  - intros (row & ? & Hs & Hn & ? & ?). right. exists row.
    by rewrite Hs, Hn.
Qed.

(** The gene-centric grouping is the inverse of the strain-centric one: a
    neighbour id is in the group of a strain exactly when the strain is in
    the group of the neighbour id. *)
Theorem groupings_are_inverse (rows : list csv_row) (strain neighbor : string) :
  neighbor ∈ members (accumulate rows ∅ ∅).1 strain
  <-> strain ∈ members (accumulate rows ∅ ∅).2 neighbor.
Proof.
  destruct (members_accumulate rows (∅, ∅) strain neighbor) as [H1 H2].
  simpl in H1, H2. rewrite H1, H2. unfold members. rewrite !lookup_empty. simpl.
  split; (intros [?%not_elem_of_empty|?]; [done|by right]).
Qed.

(** The groupings do not depend on the order of the rows. *)
Lemma accumulate_Permutation (rows rows' : list csv_row) st :
  rows ≡ₚ rows' -> accumulate rows st.1 st.2 = accumulate rows' st.1 st.2.
Proof.
  intros Hperm. revert st.
  induction Hperm as [|row l l' _ IH|row row' l|l l' l'' _ IH1 _ IH2]; intros st.
  - done.
  - rewrite !accumulate_cons, <- surjective_pairing. apply IH.
  - rewrite !accumulate_cons, <- !surjective_pairing.
    by rewrite absorb_comm.
  - by rewrite IH1.
Qed.

(** The outcome of the second stage, diagnostics and both tables, does not
    depend on the order of the rows of the input. *)
Theorem summaries_ignore_row_order (reader : csv_source)
    (input_file output_strains output_genes : string)
    (rows rows' : list csv_row) :
  reader input_file = inr rows ->
  rows ≡ₚ rows' ->
  summarize_neighbors reader input_file output_strains output_genes
  = summarize_neighbors (fun _ => inr rows') input_file output_strains output_genes.
Proof.
  intros Hrows Hperm. unfold summarize_neighbors. rewrite Hrows.
  pose proof (accumulate_Permutation rows rows' (∅, ∅) Hperm) as Hacc.
  simpl in Hacc. by rewrite Hacc.
Qed.

Lemma summaries_ignore_row_order_witness :
  summarize_neighbors (fun _ => inr scenario_rows) "in.csv" "s.csv" "g.csv"
  = summarize_neighbors (fun _ => inr (reverse scenario_rows))
      "in.csv" "s.csv" "g.csv".
Proof.
  apply (summaries_ignore_row_order (fun _ => inr scenario_rows)
           "in.csv" "s.csv" "g.csv" scenario_rows).
  - reflexivity.
  - symmetry. apply reverse_Permutation.
Defined.

End Groupings.

(** ** The summary tables *)

Section Summaries.

Implicit Types (data strain_data gene_data : groups) (row : csv_row).
Implicit Types (st : groups * groups).

#[local] Instance key_le_trans : Transitive key_le.
Proof. intros a b c. unfold key_le. apply transitivity. Qed.

#[local] Instance key_le_total : Total key_le.
Proof. intros a b. unfold key_le. apply total, _. Qed.

Lemma sorted_members (g : gset string) :
  StronglySorted String.le (sorted (elements g))
  /\ NoDup (sorted (elements g))
  /\ forall x, x ∈ sorted (elements g) <-> x ∈ g.
Proof.
  unfold sorted. split; [apply StronglySorted_merge_sort; apply _|]. split.
  - rewrite merge_sort_Permutation. apply NoDup_elements.
  - intros x. rewrite merge_sort_Permutation. apply elem_of_elements.
Qed.

(** A summary lists the keys in order, one row each. *)
Lemma summary_in_key_order (key_name count_name slot_prefix : string) data
    (t : table) :
  summary key_name count_name slot_prefix data = inr t -> in_key_order data t.
Proof.
  unfold summary. intros H. apply bind_inr in H as (width & Hmax & H).
  apply py_max_inr in Hmax as [_ Hwidth]. fold (max_group_size data) in Hwidth.
  subst width. injection H as <-. exists (sorted_items data). simpl.
  unfold sorted_items. split; [done|].
  split; [apply merge_sort_Permutation|]. split; [|split].
  - apply (StronglySorted_fmap fst key_le String.le); [by intros [? ?] [? ?]|].
    apply StronglySorted_merge_sort; apply _.
  - rewrite merge_sort_Permutation. apply NoDup_fst_map_to_list.
  - apply Forall_forall. intros item _. apply sorted_members.
Qed.

(** In each of the two summaries the data rows are one per key, in the order
    of the keys, without a repeated key; in a row the members are in order
    and without a repeated member, and they are the members of the group. *)
Theorem summaries_in_key_order (reader : csv_source)
    (input_file output_strains output_genes : string)
    (diags : list diag) (strains genes : table) :
  summarize_neighbors reader input_file output_strains output_genes
    = inr (diags, Some (strains, genes)) ->
  exists rows,
    reader input_file = inr rows
    /\ in_key_order (accumulate rows ∅ ∅).1 strains
    /\ in_key_order (accumulate rows ∅ ∅).2 genes.
Proof.
  unfold summarize_neighbors.
  destruct (reader input_file) as [e|rows]; [by destruct e|].
  destruct (accumulate rows ∅ ∅) as [strain_data gene_data] eqn:Hacc.
  destruct (decide (strain_data = ∅)); [done|].
  intros H. apply bind_inr in H as (t1 & H1 & H).
  apply bind_inr in H as (t2 & H2 & H). injection H as _ <- <-.
  exists rows. split; [done|]. rewrite Hacc. simpl.
  split; [exact (summary_in_key_order _ _ _ _ _ H1)
         |exact (summary_in_key_order _ _ _ _ _ H2)].
Qed.

Lemma summaries_in_key_order_witness :
  exists rows,
    (inr (reverse scenario_rows) : result (list csv_row)) = inr rows
    /\ in_key_order (accumulate rows ∅ ∅).1
         (mkTable [Text "Strain"; Text "Neighbor_Count";
                   Text "Neighbor_1"; Text "Neighbor_2"]
            [[Text "S1"; Count 2; Text "G1"; Text "G2"];
             [Text "S2"; Count 1; Text "G1"; Text ""]])
    /\ in_key_order (accumulate rows ∅ ∅).2
         (mkTable [Text "Gene_Name"; Text "Strain_Count";
                   Text "Strain_1"; Text "Strain_2"]
            [[Text "G1"; Count 2; Text "S1"; Text "S2"];
             [Text "G2"; Count 1; Text "S1"; Text ""]]).
Proof.
  apply (summaries_in_key_order (fun _ => inr (reverse scenario_rows))
           "in.csv" "s.csv" "g.csv"
           [ReadingInput "in.csv"; WritingStrainSummary "s.csv"; WroteStrains 2;
            WritingGeneSummary "g.csv"; WroteGenes 2]).
  vm_compute. reflexivity.
Defined.




(** No group is empty. *)
Lemma add_member_inhabited (k m : string) data :
  (forall key g, data !! key = Some g -> g <> ∅) ->
  forall key g, add_member k m data !! key = Some g -> g <> ∅.
Proof.
  intros Hdata key g. unfold add_member.
  destruct (decide (k = key)) as [->|Hne].
  - rewrite lookup_insert_eq. intros [= <-].
    apply (non_empty_inhabited_L m). apply elem_of_union_r, elem_of_singleton.
    done.
  - rewrite lookup_insert_ne by done. apply Hdata.
Qed.

Lemma accumulate_inhabited (rows : list csv_row) st :
  (forall key g, st.1 !! key = Some g -> g <> ∅) ->
  (forall key g, st.2 !! key = Some g -> g <> ∅) ->
  (forall key g, (accumulate rows st.1 st.2).1 !! key = Some g -> g <> ∅)
  /\ (forall key g, (accumulate rows st.1 st.2).2 !! key = Some g -> g <> ∅).
Proof.
  revert st. induction rows as [|row rest IH]; intros st H1 H2; [done|].
  rewrite accumulate_cons, <- surjective_pairing. apply IH.
  - destruct (pair_of row) as [[[|c s]|] [[|d n]|]]; simpl; try done.
    by apply add_member_inhabited.
  - destruct (pair_of row) as [[[|c s]|] [[|d n]|]]; simpl; try done.
    by apply add_member_inhabited.
Qed.

Lemma size_inhabited (g : gset string) : g <> ∅ -> exists n, size g = S n.
Proof.
  intros Hne. destruct (size g) as [|n] eqn:Hsize; [|by exists n].
  by apply size_empty_iff, leibniz_equiv in Hsize.
Qed.

(** A summary over a grouping without empty groups has a numbered column
    and a count of at least one in every row. *)
Lemma summary_counts (key_name count_name slot_prefix : string) data (t : table) :
  (forall key g, data !! key = Some g -> g <> ∅) ->
  summary key_name count_name slot_prefix data = inr t ->
  (3 <= length (header t))%nat /\ Forall counts_some (data_rows t).
Proof.
  intros Hdata Hsum.
  assert (data <> ∅) as Hne.
  { intros ->. unfold summary in Hsum. by rewrite map_to_list_empty in Hsum. }
  destruct (summary_well_padded _ _ _ _ _ Hsum) as [Hheader Hrows]. split.
  - destruct (max_group_size_attained data Hne) as (key & g & Hg & Hsize).
    destruct (size_inhabited g (Hdata _ _ Hg)) as [n Hn]. lia.
  - eapply Forall_impl; [exact Hrows|]. simpl.
    intros row (_ & key & g & Hg & ->).
    destruct (size_inhabited g (Hdata _ _ Hg)) as [n ->].
    by eexists key, n, _.
Qed.

(** A summary that is written has at least one numbered column beside the
    two fixed ones, and every data row has a count of at least one: no key
    is listed without a member. *)
Theorem written_summaries_have_members (reader : csv_source)
    (input_file output_strains output_genes : string)
    (diags : list diag) (strains genes : table) :
  summarize_neighbors reader input_file output_strains output_genes
    = inr (diags, Some (strains, genes)) ->
  ((3 <= length (header strains))%nat /\ Forall counts_some (data_rows strains))
  /\ ((3 <= length (header genes))%nat /\ Forall counts_some (data_rows genes)).
Proof.
  unfold summarize_neighbors.
  destruct (reader input_file) as [e|rows]; [by destruct e|].
  destruct (accumulate_inhabited rows (∅, ∅)) as [Hs Hg];
    [intros ? ?; simpl; by rewrite lookup_empty..|]. simpl in Hs, Hg.
  destruct (accumulate rows ∅ ∅) as [strain_data gene_data].
  destruct (decide (strain_data = ∅)); [done|].
  intros H. apply bind_inr in H as (t1 & H1 & H).
  apply bind_inr in H as (t2 & H2 & H). injection H as _ <- <-.
  split; [exact (summary_counts _ _ _ _ _ Hs H1)
         |exact (summary_counts _ _ _ _ _ Hg H2)].
Qed.

Lemma written_summaries_have_members_witness :
  ((3 <= length (header (mkTable [Text "Strain"; Text "Neighbor_Count";
                                  Text "Neighbor_1"; Text "Neighbor_2"]
                           [[Text "S1"; Count 2; Text "G1"; Text "G2"];
                            [Text "S2"; Count 1; Text "G1"; Text ""]])))%nat
   /\ Forall counts_some
        (data_rows (mkTable [Text "Strain"; Text "Neighbor_Count";
                             Text "Neighbor_1"; Text "Neighbor_2"]
                      [[Text "S1"; Count 2; Text "G1"; Text "G2"];
                       [Text "S2"; Count 1; Text "G1"; Text ""]])))
  /\ ((3 <= length (header (mkTable [Text "Gene_Name"; Text "Strain_Count";
                                     Text "Strain_1"; Text "Strain_2"]
                              [[Text "G1"; Count 2; Text "S1"; Text "S2"];
                               [Text "G2"; Count 1; Text "S1"; Text ""]])))%nat
      /\ Forall counts_some
           (data_rows (mkTable [Text "Gene_Name"; Text "Strain_Count";
                                Text "Strain_1"; Text "Strain_2"]
                         [[Text "G1"; Count 2; Text "S1"; Text "S2"];
                          [Text "G2"; Count 1; Text "S1"; Text ""]]))).
Proof.
  apply (written_summaries_have_members (fun _ => inr scenario_rows)
           "in.csv" "s.csv" "g.csv"
           [ReadingInput "in.csv"; WritingStrainSummary "s.csv"; WroteStrains 2;
            WritingGeneSummary "g.csv"; WroteGenes 2]).
  vm_compute. reflexivity.
Defined.

End Summaries.

(** ** The keys of the annotation index *)

Section IndexKeys.

Implicit Types (db : gmap string (gmap string (list Feature))).

Lemma basename_no_slash (path : string) : Py.contains "/" (basename path) = false.
Proof.
  induction path as [|c rest IH]; [done|].
  cbn [basename]. destruct (Py.contains "/" rest) eqn:Hrest; [done|].
  destruct (Ascii.eqb c "/") eqn:Hc; [done|].
  cbn [Py.contains]. rewrite Hrest, orb_false_r.
  change (String.prefix "/" (String c rest))
    with (if ascii_dec "/" c then String.prefix "" rest else false).
  apply Ascii.eqb_neq in Hc. by destruct (ascii_dec "/" c) as [<-|].
Qed.

Lemma dir_entries_strains (root : string) (files : list string) (strain : string) :
  strain ∈ (dir_entries root files).*1 -> strain = basename root.
Proof.
  induction files as [|file rest IH]; simpl; [by intros ?%elem_of_nil|].
  destruct (Py.endswith file ".gff"); [|done].
  simpl. by intros [->|?]%elem_of_cons; [|apply IH].
Qed.

Lemma gff_files_strains (walk : list (string * list string * list string))
    (strain : string) :
  strain ∈ (gff_files walk).*1 -> exists root, strain = basename root.
Proof.
  induction walk as [|[[root dirs] files] rest IH]; simpl;
    [by intros ?%elem_of_nil|].
  rewrite fmap_app, elem_of_app. intros [?%dir_entries_strains|?]; [|by apply IH].
  by exists root.
Qed.

Lemma load_entries_dom (fs : filesystem) (entries : list (string * string)) db db' :
  load_entries fs entries db = inr db' ->
  dom db' = dom db ∪ list_to_set entries.*1.
Proof.
  revert db. induction entries as [|[strain path] rest IH]; intros db; simpl.
  - intros [= <-]. by rewrite (right_id_L ∅ (∪)).
  - intros H. apply bind_inr in H as (contig_db & _ & H).
    rewrite (IH _ H), dom_insert_L.
    by rewrite (comm_L (∪) {[strain]} (dom db)), <- (assoc_L (∪)).
Qed.

(** The strains of the index are exactly the base names of the directories
    that hold a file ending in [.gff]; other files add nothing, and no strain
    identifier contains ["/"]. *)
Theorem index_keys_are_directory_names (fs : filesystem) (annotation_dir : string)
    (walk : list (string * list string * list string)) (diags : list diag) db :
  load_all_annotations fs annotation_dir walk = inr (diags, db) ->
  dom db = list_to_set (gff_files walk).*1
  /\ forall strain, strain ∈ dom db -> Py.contains "/" strain = false.
Proof.
  unfold load_all_annotations. intros H.
  apply bind_inr in H as (loaded & Hwalk & H). injection H as _ <-.
  apply load_walk_entries, load_entries_dom in Hwalk. simpl in Hwalk.
  rewrite dom_empty_L, (left_id_L ∅ (∪)) in Hwalk. split; [done|].
  intros strain Hin. rewrite Hwalk in Hin. apply elem_of_list_to_set in Hin.
  apply gff_files_strains in Hin as [root ->]. apply basename_no_slash.
Qed.

Lemma index_keys_are_directory_names_witness :
  dom scenario_index = list_to_set (gff_files two_files_walk).*1
  /\ forall strain, strain ∈ dom scenario_index -> Py.contains "/" strain = false.
Proof.
  apply (index_keys_are_directory_names two_files "ann" two_files_walk
           [Scanning "ann"; LoadingStrain "S1"; LoadingStrain "S1"; LoadedStrains 1]).
  vm_compute. reflexivity.
Defined.

End IndexKeys.

(** ** The exceptions of the first stage *)

Section StageOneFaults.








End StageOneFaults.
(** ** Worked examples *)

Example strip_ex : Py.strip (String "009" " a b  ") = "a b".
Proof. reflexivity. Qed.

Example split_ex : Py.split "ID=" "xID=aID=b" = ["x"; "a"; "b"].
Proof. reflexivity. Qed.

Example split_empty_fields :
  Py.split tab (tab_join ["a"; ""; "b"]) = ["a"; ""; "b"].
Proof. reflexivity. Qed.

Example int_ex : Py.int " -1_000 " = inr (-1000).
Proof. reflexivity. Qed.

Example int_bad : Py.int "12a" = inl ValueError.
Proof. reflexivity. Qed.

Example header_ex :
  HEADER_REGEX_search
    ">239_P28_S15|contig=NODE_3|len=5|SubjectStart=72226_SubjectEnd=73089|x"
  = Some ("239_P28_S15", "NODE_3", "72226", "73089").
Proof. reflexivity. Qed.

Example header_later_start :
  HEADER_REGEX_search ">a|b>s|contig=c|SubjectStart=1_SubjectEnd=2"
  = Some ("s", "c", "1", "2").
Proof. reflexivity. Qed.

Example header_lazy :
  HEADER_REGEX_search
    ">s|contig=c|SubjectStart=1_SubjectEnd=x SubjectStart=30_SubjectEnd=4"
  = Some ("s", "c", "30", "4").
Proof. reflexivity. Qed.

Example basename_ex : basename "mid/annotation/1_103U_S92" = "1_103U_S92".
Proof. reflexivity. Qed.

Example basename_slash : basename "mid/annotation/" = "".
Proof. reflexivity. Qed.

Example gff_line_ex :
  parse_gff_line
    ("NODE_1" +:+ tab +:+ "prokka" +:+ tab +:+ "CDS" +:+ tab +:+ "10" +:+ tab
     +:+ "90" +:+ tab +:+ "." +:+ tab +:+ "+" +:+ tab +:+ "0" +:+ tab
     +:+ "ID=abc_1;product=kinase" +:+ String newline "")
  = inr (Some ("NODE_1", mkFeature "CDS" 10 90 "+" "abc_1" "kinase")).
Proof. reflexivity. Qed.

Example summarize_scenario :
  summarize_neighbors
    (fun _ => inr [row_of "S1" "G1"; row_of "S1" "G2"; row_of "S2" "G1"])
    "in.csv" "s.csv" "g.csv"
  = inr ([ReadingInput "in.csv"; WritingStrainSummary "s.csv"; WroteStrains 2;
          WritingGeneSummary "g.csv"; WroteGenes 2],
         Some (mkTable [Text "Strain"; Text "Neighbor_Count";
                        Text "Neighbor_1"; Text "Neighbor_2"]
                 [[Text "S1"; Count 2; Text "G1"; Text "G2"];
                  [Text "S2"; Count 1; Text "G1"; Text ""]],
               mkTable [Text "Gene_Name"; Text "Strain_Count";
                        Text "Strain_1"; Text "Strain_2"]
                 [[Text "G1"; Count 2; Text "S1"; Text "S2"];
                  [Text "G2"; Count 1; Text "S1"; Text ""]])).
Proof. vm_compute. reflexivity. Qed.

(** The window [1000, 2000] of the specification: a midpoint of 2000 is in,
    a midpoint of 2001 is out. *)
Example window_scenario :
  (find_neighbors [scenario_goi]
     (scenario_db [feature_at "in" 1900 2100; feature_at "out" 1901 2101;
                   feature_at "half" 999 1000; feature_at "low" 999 1001]) 500).2
  = [neighbor_record scenario_goi (feature_at "in" 1900 2100);
     neighbor_record scenario_goi (feature_at "low" 999 1001)].
Proof. vm_compute. reflexivity. Qed.

(** An empty index: every gene of interest is passed over with a warning
    and no file is written. *)
Example empty_index :
  find_neighbors [scenario_goi] ∅ 500 = ([NoAnnotationForStrain "S1"], [])
  /\ write_output_csv [] "out.csv" = ([NoNeighborsFound], None).
Proof. split; reflexivity. Qed.

Example id_inside_longer_key :
  attribute "ID=" "Parent_ID=g1;ID=c1" = inr "g1"
  /\ attribute "ID=" "locusID=12;ID=c1" = inr "12"
  /\ attribute "ID=" "Name=x" = inr "N/A".
Proof. repeat split; reflexivity. Qed.
